(** * Coastal Risk Predictor (app2.py): risk classification, prediction
      results and page navigation

    A shallow embedding of the logic of [app2.py]: the two model calls of
    [make_predictions] with their thresholds, the cards chosen by
    [display_prediction_results], the loading of the two model artifacts by
    [load_models], and the top-level script that Streamlit re-executes on
    every interaction.  Python floats are IEEE 754 binary64 values and are
    modelled by Rocq's primitive floats; the dictionaries with string keys
    are finite maps. *)

From Stdlib Require Import ZArith QArith Qpower Lia Floats.
From stdpp Require Import gmap strings.

Set Warnings "-inexact-float".

(** ** Binary64 values *)

Module Float64.

(** Python's [x >= y] on floats: false as soon as one side is NaN. *)
Definition ge (x y : float) : bool := (y <=? x)%float.

(** Python's [x <= y] on floats. *)
Definition le (x y : float) : bool := (x <=? y)%float.

(** Python's truth value of a float, [bool(x)]: [x != 0.0].  Both zeros are
    false, NaN is true. *)
Definition truthy (x : float) : bool := negb (x =? 0)%float.

Local Open Scope Q_scope.

(** The rational denoted by a finite value ([0] for both zeros). *)
Definition SF2Q (x : spec_float) : Q :=
  match x with
  | S754_finite s m e =>
      (if s then - inject_Z (Z.pos m) else inject_Z (Z.pos m)) * 2 ^ e
  | _ => 0
  end.

Definition value (x : float) : Q := SF2Q (Prim2SF x).

Definition SFfinite (x : spec_float) : bool :=
  match x with
  | S754_zero _ | S754_finite _ _ _ => true
  | _ => false
  end.

Definition mag (m : positive) (e : Z) : Q := inject_Z (Z.pos m) * 2 ^ e.

End Float64.

(** ** Exceptions and fallible, stateful computations *)

(** A Python exception caught by [except Exception], with the text that
    [str(e)] gives. *)
Inductive exn : Type :=
| Exception (msg : string).

Definition str (e : exn) : string :=
  match e with Exception msg => msg end.

Inductive outcome (A : Type) : Type :=
| Returns (a : A)
| Raises (e : exn).
Arguments Returns {A} a.
Arguments Raises {A} e.

(** A block of statements over local state [S]: it returns or raises, and
    in both cases leaves the state it has reached. *)
Definition M (S A : Type) : Type := S -> outcome A * S.

Section Monad.
Context {S : Type}.

Definition ret {A} (a : A) : M S A := fun s => (Returns a, s).

Definition bind {A B} (m : M S A) (f : A -> M S B) : M S B :=
  fun s =>
    match m s with
    | (Returns a, s') => f a s'
    | (Raises e, s') => (Raises e, s')
    end.

Definition call {A} (o : outcome A) : M S A := fun s => (o, s).

Definition modify (f : S -> S) : M S unit := fun s => (Returns tt, f s).

(** [try: body except Exception as e: handler e] *)
Definition try_except {A} (body : M S A) (handler : exn -> M S A) : M S A :=
  fun s =>
    match body s with
    | (Returns a, s') => (Returns a, s')
    | (Raises e, s') => handler e s'
    end.

(** The result of a block that ends in [return <state>]. *)
Definition returning (m : M S unit) (init : S) : outcome S :=
  match m init with
  | (Returns _, s) => Returns s
  | (Raises e, _) => Raises e
  end.
End Monad.

Notation "'let*' x ':=' m 'in' f" := (bind m (fun x => f))
  (at level 10, x name, m at level 100, f at level 200).
Notation "m1 '>>' m2" := (bind m1 (fun _ => m2))
  (at level 100, m2 at level 200, right associativity).

(** ** The models *)

(** [tide_model.predict(input_data)[0]]: a float, or an exception. *)
Definition TideModel : Type := float -> float -> outcome float.

(** [coastal_model.predict(input_data)[0]]: a label, or an exception. *)
Definition CoastalModel : Type := float -> float -> outcome string.

(** ** [make_predictions] *)

(** The inner dictionaries stored under ['tide'] and ['coastal']. *)
Inductive entry : Type :=
| TideResult (score : float) (level color class : string)
| CoastalResult (level color class : string)
| Failure (error : string).

Definition success (e : entry) : bool :=
  match e with
  | TideResult _ _ _ _ | CoastalResult _ _ _ => true
  | Failure _ => false
  end.

Definition KeyError (key : string) : exn := Exception ("'" ++ key ++ "'").

Definition get_score (e : entry) : outcome float :=
  match e with
  | TideResult score _ _ _ => Returns score
  | _ => Raises (KeyError "score")
  end.

Definition get_level (e : entry) : outcome string :=
  match e with
  | TideResult _ level _ _ | CoastalResult level _ _ => Returns level
  | Failure _ => Raises (KeyError "level")
  end.

Definition get_color (e : entry) : outcome string :=
  match e with
  | TideResult _ _ color _ | CoastalResult _ color _ => Returns color
  | Failure _ => Raises (KeyError "color")
  end.

Definition get_class (e : entry) : outcome string :=
  match e with
  | TideResult _ _ _ class | CoastalResult _ _ class => Returns class
  | Failure _ => Raises (KeyError "class")
  end.

(** Convert the tide score to a risk level: [(tide_level, tide_color,
    tide_class)]. *)
Definition tide_risk_level (tide_pred : float) : string * string * string :=
  if Float64.ge tide_pred 2.5 then ("High", "🔴", "risk-high")
  else if Float64.ge tide_pred 1.5 then ("Moderate", "🟡", "risk-moderate")
  else ("Low", "🟢", "risk-low").

(** Map the coastal label to colors and classes:
    [(coastal_color, coastal_class)]. *)
Definition coastal_risk_style (coastal_pred : string) : string * string :=
  if (coastal_pred =? "High")%string then ("🔴", "risk-high")
  else if (coastal_pred =? "Moderate")%string then ("🟡", "risk-moderate")
  else ("🟢", "risk-low").

Definition set_result (key : string) (e : entry) : M (gmap string entry) unit :=
  modify (fun results => <[key := e]> results).

Definition tide_prediction (tide_model : option TideModel) (lat lon : float)
  : M (gmap string entry) unit :=
  match tide_model with
  | Some model =>
      try_except
        (let* tide_pred := call (model lat lon) in
         let '(tide_level, tide_color, tide_class) := tide_risk_level tide_pred in
         set_result "tide" (TideResult tide_pred tide_level tide_color tide_class))
        (fun e => set_result "tide" (Failure (str e)))
  | None => ret tt
  end.

Definition coastal_prediction (coastal_model : option CoastalModel) (lat lon : float)
  : M (gmap string entry) unit :=
  match coastal_model with
  | Some model =>
      try_except
        (let* coastal_pred := call (model lat lon) in
         let '(coastal_color, coastal_class) := coastal_risk_style coastal_pred in
         set_result "coastal" (CoastalResult coastal_pred coastal_color coastal_class))
        (fun e => set_result "coastal" (Failure (str e)))
  | None => ret tt
  end.

Definition make_predictions (tide_model : option TideModel)
    (coastal_model : option CoastalModel) (lat lon : float)
  : outcome (gmap string entry) :=
  returning
    (tide_prediction tide_model lat lon >>
     coastal_prediction coastal_model lat lon)
    ∅.

(** ** [display_prediction_results] *)

(** What the page shows, one constructor per block of markup.  The styling,
    the progress bar and the time stamp are left out. *)
Inductive element : Type :=
| ResultsHeader
| LocationInfo (latitude longitude : float)
| TideCard (class color level : string) (score : float)
| CoastalCard (class color level : string)
| ModelUnavailable (title : string)
| OverallCard (class text desc : string)
| ModelFilesMissing
| HomeTitle
| HomeFeatures
| MapTitle
| FoliumMap (latitude longitude : float)
| LocationSelected (latitude longitude : float)
| MapFeatureUnavailable
| FallbackMap (latitude longitude : float)
| CoordinatesTitle
| Balloons
| InvalidCoordinates
| Footer.

Definition markdown (e : element) : M (list element) unit :=
  modify (fun page => page ++ [e]).

(** [key in results and results[key]['success']] *)
Definition available (key : string) (results : gmap string entry) : bool :=
  match results !! key with
  | Some e => success e
  | None => false
  end.

(** [results[key]]; only evaluated behind [key in results]. *)
Definition item (key : string) (results : gmap string entry) : outcome entry :=
  match results !! key with
  | Some e => Returns e
  | None => Raises (KeyError key)
  end.

(** Determine the overall risk: [(overall_class, overall_text,
    overall_desc)]. *)
Definition overall_risk (tide_risk : float) (coastal_risk : string)
  : string * string * string :=
  if Float64.ge tide_risk 2.5 || (coastal_risk =? "High")%string then
    ("risk-high", "🔴 CRITICAL RISK", "Avoid all coastal activities immediately")
  else if Float64.ge tide_risk 1.5 || (coastal_risk =? "Moderate")%string then
    ("risk-moderate", "🟡 MODERATE RISK",
     "Exercise extreme caution near coastal areas")
  else
    ("risk-low", "🟢 LOW RISK",
     "Generally safe conditions for coastal activities").

Definition tide_card (results : gmap string entry) : M (list element) unit :=
  if available "tide" results then
    let* tide := call (item "tide" results) in
    let* class := call (get_class tide) in
    let* color := call (get_color tide) in
    let* level := call (get_level tide) in
    let* score := call (get_score tide) in
    markdown (TideCard class color level score)
  else markdown (ModelUnavailable "Tide Risk Analysis").

Definition coastal_card (results : gmap string entry) : M (list element) unit :=
  if available "coastal" results then
    let* coastal := call (item "coastal" results) in
    let* class := call (get_class coastal) in
    let* color := call (get_color coastal) in
    let* level := call (get_level coastal) in
    markdown (CoastalCard class color level)
  else markdown (ModelUnavailable "Coastal Flood Risk").

Definition overall_card (results : gmap string entry) : M (list element) unit :=
  if available "tide" results && available "coastal" results then
    let* tide := call (item "tide" results) in
    let* tide_risk := call (get_score tide) in
    let* coastal := call (item "coastal" results) in
    let* coastal_risk := call (get_level coastal) in
    let '(overall_class, overall_text, overall_desc) :=
      overall_risk tide_risk coastal_risk in
    markdown (OverallCard overall_class overall_text overall_desc)
  else ret tt.

Definition display_prediction_results (results : gmap string entry)
    (latitude longitude : float) : M (list element) unit :=
  markdown ResultsHeader >>
  markdown (LocationInfo latitude longitude) >>
  tide_card results >>
  coastal_card results >>
  overall_card results.

(** ** [load_models] *)

Definition is_None {A} (x : option A) : bool :=
  match x with None => true | Some _ => false end.

(** What the model store holds under a path: nothing, or an artifact that
    [joblib.load] turns into a model or fails on. *)
Record filesystem : Type := {
  tide_prediction_joblib : option (outcome TideModel);
  coastal_risk_model_joblib : option (outcome CoastalModel)
}.

Inductive action : Type :=
| PathExists (path : string)
| JoblibLoad (path : string)
| StError (msg : string).

(** The two local variables of [load_models] and what it has done so far. *)
Record load_state : Type := {
  tide_model_var : option TideModel;
  coastal_model_var : option CoastalModel;
  actions : list action
}.

Definition log (a : action) : M load_state unit :=
  modify (fun st =>
    {| tide_model_var := tide_model_var st;
       coastal_model_var := coastal_model_var st;
       actions := actions st ++ [a] |}).

Definition set_tide_model (m : TideModel) : M load_state unit :=
  modify (fun st =>
    {| tide_model_var := Some m;
       coastal_model_var := coastal_model_var st;
       actions := actions st |}).

Definition set_coastal_model (m : CoastalModel) : M load_state unit :=
  modify (fun st =>
    {| tide_model_var := tide_model_var st;
       coastal_model_var := Some m;
       actions := actions st |}).

Definition os_path_exists {A} (path : string) (file : option A)
  : M load_state bool :=
  log (PathExists path) >> ret (negb (is_None file)).

Definition joblib_load {A} (path : string) (file : option (outcome A))
  : M load_state A :=
  log (JoblibLoad path) >>
  match file with
  | Some artifact => call artifact
  | None => call (Raises (Exception ("No such file or directory: " ++ path)))
  end.

Definition st_error (msg : string) : M load_state unit := log (StError msg).

Definition load_models_body (fs : filesystem) : M load_state unit :=
  try_except
    ((let* found := os_path_exists "tide_prediction.joblib"
                      (tide_prediction_joblib fs) in
      if found then
        let* model := joblib_load "tide_prediction.joblib"
                        (tide_prediction_joblib fs) in
        set_tide_model model
      else st_error "❌ tide_prediction.joblib not found") >>
     (let* found := os_path_exists "coastal_risk_model.joblib"
                      (coastal_risk_model_joblib fs) in
      if found then
        let* model := joblib_load "coastal_risk_model.joblib"
                        (coastal_risk_model_joblib fs) in
        set_coastal_model model
      else st_error "❌ coastal_risk_model.joblib not found"))
    (fun e => st_error ("Error loading models: " ++ str e)).

(** The state in which [load_models] reaches its [return]: the pair
    [tide_model, coastal_model] it returns, and its trace. *)
Definition load_models (fs : filesystem) : load_state :=
  snd (load_models_body fs
         {| tide_model_var := None; coastal_model_var := None; actions := [] |}).

(** ** The script *)

(** [st.session_state]: each key is there or not. *)
Record session_state : Type := {
  state_page : option string;
  state_latitude : option float;
  state_longitude : option float
}.

(** The session state once the three keys are initialised. *)
Record Session : Type := {
  page : string;
  latitude : float;
  longitude : float
}.

Definition initialize (st : session_state) : Session :=
  {| page := default "home" (state_page st);
     latitude := default 53.3498%float (state_latitude st);
     longitude := default (-6.2603)%float (state_longitude st) |}.

Definition stored (s : Session) : session_state :=
  {| state_page := Some (page s);
     state_latitude := Some (latitude s);
     state_longitude := Some (longitude s) |}.

Definition set_page (p : string) (s : Session) : Session :=
  {| page := p; latitude := latitude s; longitude := longitude s |}.

Definition set_coordinate (lat lon : float) (s : Session) : Session :=
  {| page := page s; latitude := lat; longitude := lon |}.

(** What the widgets return in one run of the script. *)
Record widgets : Type := {
  btn_map : bool;          (* "Interactive Map Selection" *)
  btn_coordinates : bool;  (* "Manual Coordinate Entry" *)
  btn_back : bool;         (* "Back to Home" *)
  last_clicked : option (float * float);  (* map_data['last_clicked'] *)
  btn_analyze : bool;      (* "Analyze Coastal Risks" *)
  latitude_input : option float;   (* what the user typed, if anything *)
  longitude_input : option float
}.

(** How one run of the script ends. *)
Inductive control : Type :=
| Completed
| Stopped              (* st.stop() *)
| Rerun                (* st.rerun() *)
| Uncaught (e : exn).

Record run : Type := {
  session : Session;
  rendered : list element;
  ctl : control
}.

(** [results = make_predictions(...)] followed by [st.balloons()] and
    [display_prediction_results(results, latitude, longitude)]. *)
Definition analyze (tide_model : option TideModel)
    (coastal_model : option CoastalModel) (lat lon : float) (s : Session)
    (shown : list element) : run :=
  match make_predictions tide_model coastal_model lat lon with
  | Returns results =>
      match display_prediction_results results lat lon (shown ++ [Balloons]) with
      | (Returns _, shown') =>
          {| session := s; rendered := shown'; ctl := Completed |}
      | (Raises e, shown') =>
          {| session := s; rendered := shown'; ctl := Uncaught e |}
      end
  | Raises e => {| session := s; rendered := shown; ctl := Uncaught e |}
  end.

Definition home_page (s : Session) (w : widgets) : run :=
  if btn_map w then
    {| session := set_page "map" s; rendered := [HomeTitle]; ctl := Rerun |}
  else if btn_coordinates w then
    {| session := set_page "coordinates" s; rendered := [HomeTitle]; ctl := Rerun |}
  else
    {| session := s; rendered := [HomeTitle; HomeFeatures]; ctl := Completed |}.

Definition map_page (folium : bool) (tide_model : option TideModel)
    (coastal_model : option CoastalModel) (s : Session) (w : widgets) : run :=
  if btn_back w then
    {| session := set_page "home" s; rendered := []; ctl := Rerun |}
  else if folium then
    let shown := [MapTitle; FoliumMap (latitude s) (longitude s)] in
    let after_click :=
      if btn_analyze w then
        analyze tide_model coastal_model (latitude s) (longitude s) s shown
      else {| session := s; rendered := shown; ctl := Completed |} in
    match last_clicked w with
    | Some (clicked_lat, clicked_lng) =>
        if Float64.truthy clicked_lat && Float64.truthy clicked_lng then
          {| session := set_coordinate clicked_lat clicked_lng s;
             rendered := shown ++ [LocationSelected clicked_lat clicked_lng];
             ctl := Rerun |}
        else after_click
    | None => after_click
    end
  else
    {| session := s;
       rendered := [MapTitle; MapFeatureUnavailable;
                    FallbackMap (latitude s) (longitude s)];
       ctl := Completed |}.

(** [st.number_input(..., value=value)]: the typed value, else [value]. *)
Definition number_input (typed : option float) (value : float) : float :=
  default value typed.

Definition coordinates_page (tide_model : option TideModel)
    (coastal_model : option CoastalModel) (s : Session) (w : widgets) : run :=
  if btn_back w then
    {| session := set_page "home" s; rendered := []; ctl := Rerun |}
  else
    let latitude := number_input (latitude_input w) (latitude s) in
    let longitude := number_input (longitude_input w) (longitude s) in
    let s := set_coordinate latitude longitude s in
    let shown := [CoordinatesTitle] in
    if btn_analyze w then
      if Float64.le (-90) latitude && Float64.le latitude 90 &&
         Float64.le (-180) longitude && Float64.le longitude 180
      then analyze tide_model coastal_model latitude longitude s shown
      else {| session := s; rendered := shown ++ [InvalidCoordinates];
              ctl := Completed |}
    else {| session := s; rendered := shown; ctl := Completed |}.

Definition footer (r : run) : run :=
  match ctl r with
  | Completed =>
      {| session := session r; rendered := rendered r ++ [Footer];
         ctl := Completed |}
  | _ => r
  end.

(** One execution of the script, from the session state and the widget
    values to the page it shows and the session state it leaves.
    [loaded] is the (cached) result of [load_models]. *)
Definition app2 (folium : bool) (loaded : load_state) (st : session_state)
    (w : widgets) : run :=
  let s := initialize st in
  let tide_model := tide_model_var loaded in
  let coastal_model := coastal_model_var loaded in
  if is_None tide_model && is_None coastal_model then
    {| session := s; rendered := [ModelFilesMissing]; ctl := Stopped |}
  else
    footer
      (if (page s =? "home")%string then home_page s w
       else if (page s =? "map")%string then
         map_page folium tide_model coastal_model s w
       else if (page s =? "coordinates")%string then
         coordinates_page tide_model coastal_model s w
       else {| session := s; rendered := []; ctl := Completed |}).

(** A session: the models are loaded once, then the script runs once per
    interaction, each run starting from the session state the previous one
    left. *)
Fixpoint reruns (folium : bool) (loaded : load_state) (st : session_state)
    (ws : list widgets) : list run :=
  match ws with
  | [] => []
  | w :: ws' =>
      let r := app2 folium loaded st w in
      r :: reruns folium loaded (stored (session r)) ws'
  end.

(** The session state of a new session: no key yet. *)
Definition no_session : session_state :=
  {| state_page := None; state_latitude := None; state_longitude := None |}.

Definition app_session (folium : bool) (fs : filesystem) (ws : list widgets)
  : list run :=
  reruns folium (load_models fs) no_session ws.

(** ** Definitions used to state the properties *)

(** ** The specification's bands *)

Module Spec.
(** The three risk bands of the specification. *)
Inductive RiskBand : Type := Low | Moderate | High.

(** The band a stored CSS class stands for. *)
Definition band_of_class (class : string) : RiskBand :=
  if (class =? "risk-high")%string then High
  else if (class =? "risk-moderate")%string then Moderate
  else Low.

(** The band a stored level stands for. *)
Definition band_of_level (level : string) : RiskBand :=
  if (level =? "High")%string then High
  else if (level =? "Moderate")%string then Moderate
  else Low.

(** The verdict from the bands, in the specification's words: High if the
    tide band is High or the coastal band is High, else Moderate if the
    tide band is Moderate or the coastal band is Moderate, else Low. *)
Definition overall_by_bands (tide_band coastal_band : RiskBand) : RiskBand :=
  match tide_band, coastal_band with
  | High, _ | _, High => High
  | Moderate, _ | _, Moderate => Moderate
  | Low, Low => Low
  end.

(** The card of a verdict: class, headline and advisory string. *)
Definition overall_style (band : RiskBand) : string * string * string :=
  match band with
  | High =>
      ("risk-high", "🔴 CRITICAL RISK",
       "Avoid all coastal activities immediately")
  | Moderate =>
      ("risk-moderate", "🟡 MODERATE RISK",
       "Exercise extreme caution near coastal areas")
  | Low =>
      ("risk-low", "🟢 LOW RISK",
       "Generally safe conditions for coastal activities")
  end.
End Spec.

(** The bands that [make_predictions] stores: the level of the tide entry
    and the class of the coastal entry. *)
Definition derived_tide_band (score : float) : Spec.RiskBand :=
  Spec.band_of_level (tide_risk_level score).1.1.

Definition derived_coastal_band (label : string) : Spec.RiskBand :=
  Spec.band_of_class (coastal_risk_style label).2.

(** The entry that the tide block leaves under ['tide'], if any. *)
Definition tide_entry (tide_model : option TideModel) (lat lon : float)
  : option entry :=
  match tide_model with
  | Some model =>
      match model lat lon with
      | Returns score =>
          let '(level, color, class) := tide_risk_level score in
          Some (TideResult score level color class)
      | Raises e => Some (Failure (str e))
      end
  | None => None
  end.

(** The entry that the coastal block leaves under ['coastal'], if any. *)
Definition coastal_entry (coastal_model : option CoastalModel)
    (lat lon : float) : option entry :=
  match coastal_model with
  | Some model =>
      match model lat lon with
      | Returns label =>
          let '(color, class) := coastal_risk_style label in
          Some (CoastalResult label color class)
      | Raises e => Some (Failure (str e))
      end
  | None => None
  end.

Definition has_overall (shown : list element) : bool :=
  existsb (fun e => match e with OverallCard _ _ _ => true | _ => false end)
          shown.

(** A run of the blocked session: stopped at the message, with the
    default session state. *)
Definition blocked (r : run) : Prop :=
  ctl r = Stopped /\ rendered r = [ModelFilesMissing] /\
  session r =
    {| page := "home"; latitude := 53.3498; longitude := (-6.2603) |}.

(** The elements that [display_prediction_results] draws. *)
Definition result_element (e : element) : Prop :=
  match e with
  | ResultsHeader | LocationInfo _ _ | TideCard _ _ _ _ | CoastalCard _ _ _
  | ModelUnavailable _ | OverallCard _ _ _ => True
  | _ => False
  end.

(** A click ignored by the handler: no payload, or a latitude or longitude
    equal to [0.0]. *)
Definition ignored_click (c : option (float * float)) : Prop :=
  match c with
  | None => True
  | Some (lat, lng) => (lat =? 0)%float = true \/ (lng =? 0)%float = true
  end.

(** ** Concrete models, stores and widget values *)

Definition steady_tide : TideModel := fun _ _ => Returns 1.8%float.
Definition calm_coast : CoastalModel := fun _ _ => Returns "Low".

Definition empty_store : filesystem :=
  {| tide_prediction_joblib := None; coastal_risk_model_joblib := None |}.

Definition corrupt_tide_store : filesystem :=
  {| tide_prediction_joblib := Some (Raises (Exception "invalid load key"));
     coastal_risk_model_joblib := Some (Returns calm_coast) |}.

Definition idle : widgets :=
  {| btn_map := false; btn_coordinates := false; btn_back := false;
     last_clicked := None; btn_analyze := false;
     latitude_input := None; longitude_input := None |}.

Definition press_map : widgets :=
  {| btn_map := true; btn_coordinates := false; btn_back := false;
     last_clicked := None; btn_analyze := false;
     latitude_input := None; longitude_input := None |}.

Definition press_analyze : widgets :=
  {| btn_map := false; btn_coordinates := false; btn_back := false;
     last_clicked := None; btn_analyze := true;
     latitude_input := None; longitude_input := None |}.

Definition click (lat lng : float) : widgets :=
  {| btn_map := false; btn_coordinates := false; btn_back := false;
     last_clicked := Some (lat, lng); btn_analyze := false;
     latitude_input := None; longitude_input := None |}.

Definition both_loaded : load_state :=
  {| tide_model_var := Some steady_tide;
     coastal_model_var := Some calm_coast;
     actions := [PathExists "tide_prediction.joblib";
                 JoblibLoad "tide_prediction.joblib";
                 PathExists "coastal_risk_model.joblib";
                 JoblibLoad "coastal_risk_model.joblib"] |}.

Definition on_map_at_dublin : Session :=
  {| page := "map"; latitude := 53.3498; longitude := (-6.2603) |}.

(** ** Further definitions used to state properties *)

(** The order of the bands: Low < Moderate < High. *)
Definition band_rank (b : Spec.RiskBand) : nat :=
  match b with
  | Spec.Low => 0
  | Spec.Moderate => 1
  | Spec.High => 2
  end.

(** The three pages of the script. *)
Definition known_page (p : string) : Prop :=
  p = "home" \/ p = "map" \/ p = "coordinates".

(** Some model is loaded: the script goes past the missing-files check. *)
Definition some_model (loaded : load_state) : Prop :=
  is_None (tide_model_var loaded) && is_None (coastal_model_var loaded)
    = false.

Definition is_result_card (e : element) : bool :=
  match e with
  | ResultsHeader | LocationInfo _ _ | TideCard _ _ _ _ | CoastalCard _ _ _
  | ModelUnavailable _ | OverallCard _ _ _ => true
  | _ => false
  end.

Definition press_coordinates : widgets :=
  {| btn_map := false; btn_coordinates := true; btn_back := false;
     last_clicked := None; btn_analyze := false;
     latitude_input := None; longitude_input := None |}.

Definition press_back : widgets :=
  {| btn_map := false; btn_coordinates := false; btn_back := true;
     last_clicked := None; btn_analyze := false;
     latitude_input := None; longitude_input := None |}.

(** Back pressed in a run in which the number inputs hold typed values. *)
Definition press_back_after_typing (lat lon : float) : widgets :=
  {| btn_map := false; btn_coordinates := false; btn_back := true;
     last_clicked := None; btn_analyze := false;
     latitude_input := Some lat; longitude_input := Some lon |}.


(** A click that arrives in the run in which Analyze is pressed. *)
Definition click_and_analyze (lat lng : float) : widgets :=
  {| btn_map := false; btn_coordinates := false; btn_back := false;
     last_clicked := Some (lat, lng); btn_analyze := true;
     latitude_input := None; longitude_input := None |}.

Definition at_home_in_dublin : Session :=
  {| page := "home"; latitude := 53.3498; longitude := (-6.2603) |}.


Definition failing_tide : TideModel :=
  fun _ _ => Raises (Exception "feature names mismatch").

(** The tide artifact loads, the coastal one is corrupt. *)
Definition corrupt_coastal_store : filesystem :=
  {| tide_prediction_joblib := Some (Returns steady_tide);
     coastal_risk_model_joblib := Some (Raises (Exception "invalid load key")) |}.

(** Unfolds a block of statements down to its state transformer. *)
Ltac run_block :=
  cbv [make_predictions tide_prediction coastal_prediction returning bind
       try_except call set_result modify ret
       display_prediction_results tide_card coastal_card overall_card
       markdown item].

(** ** Facts about binary64 comparison *)

Module Float64Facts.
Import Float64.
Local Open Scope Q_scope.

Lemma digits2_pos_bounds (m : positive) :
  (2 ^ (Z.pos (digits2_pos m) - 1) <= Z.pos m < 2 ^ Z.pos (digits2_pos m))%Z.
Proof.
  induction m as [m IH | m IH |]; cbn [digits2_pos].
  - rewrite Pos2Z.inj_succ.
    replace (Z.succ (Z.pos (digits2_pos m)) - 1)%Z
      with (Z.succ (Z.pos (digits2_pos m) - 1))%Z by lia.
    rewrite !Z.pow_succ_r by lia. lia.
  - rewrite Pos2Z.inj_succ.
    replace (Z.succ (Z.pos (digits2_pos m)) - 1)%Z
      with (Z.succ (Z.pos (digits2_pos m) - 1))%Z by lia.
    rewrite !Z.pow_succ_r by lia. lia.
  - cbn. lia.
Qed.

(** A canonical binary64 significand has at most 53 bits, and exactly 53
    above the subnormal exponent. *)
Lemma bounded_digits (m : positive) (e : Z) :
  bounded prec emax m e = true ->
  (Z.pos (digits2_pos m) <= 53)%Z /\ (-1074 <= e)%Z /\
  ((-1074 < e)%Z -> Z.pos (digits2_pos m) = 53%Z).
Proof.
  unfold bounded, canonical_mantissa, fexp, emin, prec, emax.
  intros H. apply andb_prop in H as [H _]. apply Z.eqb_eq in H. lia.
Qed.

Lemma pow2_pos (e : Z) : 0 < 2 ^ e.
Proof. apply Qpower_0_lt. reflexivity. Qed.

Lemma mag_pos (m : positive) (e : Z) : 0 < mag m e.
Proof.
  unfold mag. apply Qmult_lt_0_compat; [|apply pow2_pos].
  change 0 with (inject_Z 0). rewrite <- Zlt_Qlt. lia.
Qed.

Lemma mag_lt_exponent (m1 m2 : positive) (e1 e2 : Z) :
  bounded prec emax m1 e1 = true -> bounded prec emax m2 e2 = true ->
  (e1 < e2)%Z -> mag m1 e1 < mag m2 e2.
Proof.
  intros B1 B2 He. unfold mag.
  destruct (bounded_digits _ _ B1) as (D1 & L1 & _).
  destruct (bounded_digits _ _ B2) as (_ & _ & D2).
  specialize (D2 ltac:(lia)).
  pose proof (digits2_pos_bounds m1) as [_ U1].
  pose proof (digits2_pos_bounds m2) as [L2 _].
  rewrite D2 in L2.
  assert (U1' : (Z.pos m1 < 2 ^ 53)%Z).
  { eapply Z.lt_le_trans; [exact U1|]. apply Z.pow_le_mono_r; lia. }
  replace e2 with ((e2 - e1) + e1)%Z by lia.
  rewrite Qpower_plus by discriminate.
  rewrite Qmult_assoc.
  apply Qmult_lt_compat_r; [apply pow2_pos|].
  rewrite <- (Zpower_Qpower 2 (e2 - e1)) by lia.
  rewrite <- inject_Z_mult. rewrite <- Zlt_Qlt.
  assert (2 ^ 1 <= 2 ^ (e2 - e1))%Z by (apply Z.pow_le_mono_r; lia).
  change (2 ^ 1)%Z with 2%Z in *.
  change (2 ^ (53 - 1))%Z with 4503599627370496%Z in L2.
  change (2 ^ 53)%Z with 9007199254740992%Z in U1'.
  nia.
Qed.

Lemma mag_compare (m1 m2 : positive) (e1 e2 : Z) :
  bounded prec emax m1 e1 = true -> bounded prec emax m2 e2 = true ->
  (mag m1 e1 ?= mag m2 e2) =
  match (e1 ?= e2)%Z with
  | Lt => Lt
  | Gt => Gt
  | Eq => Pos.compare_cont Eq m1 m2
  end.
Proof.
  intros B1 B2. destruct (Z.compare_spec e1 e2) as [He | He | He].
  - subst e2. change (Pos.compare_cont Eq m1 m2) with (Z.pos m1 ?= Z.pos m2)%Z.
    unfold mag. destruct (Z.compare_spec (Z.pos m1) (Z.pos m2)) as [Hm | Hm | Hm].
    + rewrite Hm. apply Qeq_alt. reflexivity.
    + apply Qlt_alt. apply Qmult_lt_compat_r; [apply pow2_pos|].
      now rewrite <- Zlt_Qlt.
    + apply Qgt_alt. apply Qmult_lt_compat_r; [apply pow2_pos|].
      now rewrite <- Zlt_Qlt.
  - apply Qlt_alt. now apply mag_lt_exponent.
  - apply Qgt_alt. now apply mag_lt_exponent.
Qed.

Lemma Qcompare_opp (p q : Q) : (- p ?= - q) = CompOpp (p ?= q).
Proof.
  unfold Qcompare. cbn [Qnum Qden Qopp].
  rewrite !Z.mul_opp_l, Z.compare_opp. apply Z.compare_antisym.
Qed.

Lemma SF2Q_finite (s : bool) (m : positive) (e : Z) :
  SF2Q (S754_finite s m e) == if s then - mag m e else mag m e.
Proof. unfold SF2Q, mag. destruct s; ring. Qed.

(** [SFcompare] on valid finite binary64 values is the comparison of the
    rationals they denote. *)
Lemma SFcompare_value (x y : spec_float) :
  valid_binary x = true -> valid_binary y = true ->
  SFfinite x = true -> SFfinite y = true ->
  SFcompare x y = Some (SF2Q x ?= SF2Q y).
Proof.
  destruct x as [sx | sx | | sx mx ex], y as [sy | sy | | sy my ey];
    try discriminate; intros Vx Vy _ _; cbn [valid_binary] in Vx, Vy;
    cbn [SFcompare]; f_equal; symmetry.
  - rewrite SF2Q_finite. cbn [SF2Q]. pose proof (mag_pos my ey) as P.
    destruct sy.
    + apply Qgt_alt. apply Qopp_lt_compat in P. exact P.
    + apply Qlt_alt. exact P.
  - rewrite SF2Q_finite. cbn [SF2Q]. pose proof (mag_pos mx ex) as P.
    destruct sx.
    + apply Qlt_alt. apply Qopp_lt_compat in P. exact P.
    + apply Qgt_alt. exact P.
  - rewrite !SF2Q_finite.
    pose proof (mag_pos mx ex) as Px. pose proof (mag_pos my ey) as Py.
    destruct sx, sy.
    + rewrite Qcompare_opp, (mag_compare _ _ _ _ Vx Vy).
      destruct (ex ?= ey)%Z; reflexivity.
    + apply Qlt_alt. apply Qlt_trans with 0; [|exact Py].
      apply Qopp_lt_compat in Px. exact Px.
    + apply Qgt_alt. apply Qlt_trans with 0; [|exact Px].
      apply Qopp_lt_compat in Py. exact Py.
    + apply mag_compare; assumption.
Qed.

(** A float that is neither NaN nor infinite is a zero or a finite value. *)
Lemma is_finite_SFfinite (x : float) :
  is_finite x = true -> SFfinite (Prim2SF x) = true.
Proof.
  unfold is_finite, Prim2SF. intros H.
  destruct (is_nan x); [discriminate|].
  destruct (is_zero x); [reflexivity|].
  destruct (is_infinity x); [discriminate|].
  destruct (Z.frexp x) as [r ex].
  destruct (shr_fexp _ _ _ _ _) as [shr e'].
  destruct (shr_m shr); reflexivity.
Qed.

(** On finite floats, [>=] is [>=] on the denoted rationals. *)
Lemma ge_value (x y : float) :
  is_finite x = true -> is_finite y = true ->
  ge x y = true <-> value y <= value x.
Proof.
  intros Fx Fy. unfold ge, value. rewrite leb_spec. unfold SFleb.
  rewrite (SFcompare_value _ _ (Prim2SF_valid y) (Prim2SF_valid x)
             (is_finite_SFfinite _ Fy) (is_finite_SFfinite _ Fx)).
  rewrite Qle_alt.
  destruct (SF2Q (Prim2SF y) ?= SF2Q (Prim2SF x)); split; congruence.
Qed.

Lemma ge_value_false (x y : float) :
  is_finite x = true -> is_finite y = true ->
  ge x y = false <-> value x < value y.
Proof.
  intros Fx Fy. rewrite <- not_true_iff_false, (ge_value x y Fx Fy).
  split; [apply Qnot_le_lt | apply Qlt_not_le].
Qed.

End Float64Facts.

(** ** The thresholds of the tide score *)

Section TideThresholds.
Import Float64 Float64Facts.
Local Open Scope Q_scope.

Lemma value_2_5 : value 2.5 == 5 # 2.
Proof. vm_compute. reflexivity. Qed.

Lemma value_1_5 : value 1.5 == 3 # 2.
Proof. vm_compute. reflexivity. Qed.

Lemma ge_2_5 (score : float) :
  is_finite score = true -> ge score 2.5 = true <-> 5 # 2 <= value score.
Proof.
  intros F. rewrite (ge_value score 2.5 F eq_refl), value_2_5. reflexivity.
Qed.

Lemma ge_1_5 (score : float) :
  is_finite score = true -> ge score 1.5 = true <-> 3 # 2 <= value score.
Proof.
  intros F. rewrite (ge_value score 1.5 F eq_refl), value_1_5. reflexivity.
Qed.

Lemma not_ge_2_5 (score : float) :
  is_finite score = true -> ge score 2.5 = false <-> value score < 5 # 2.
Proof.
  intros F. rewrite (ge_value_false score 2.5 F eq_refl), value_2_5.
  reflexivity.
Qed.

Lemma not_ge_1_5 (score : float) :
  is_finite score = true -> ge score 1.5 = false <-> value score < 3 # 2.
Proof.
  intros F. rewrite (ge_value_false score 1.5 F eq_refl), value_1_5.
  reflexivity.
Qed.

(** C2.  For every finite float score, the tide classification is High
    when the score is at least 2.5, Moderate when it is at least 1.5 and
    below 2.5, and Low when it is below 1.5 (the comparisons read on the
    exact value of the float); the lower bounds are inclusive: 2.5 is
    High, 2.4999 is Moderate, 1.5 is Moderate and 1.4999 is Low. *)
Theorem tide_risk_level_thresholds (score : float) :
  is_finite score = true ->
  (5 # 2 <= value score ->
     tide_risk_level score = ("High", "🔴", "risk-high")) /\
  (3 # 2 <= value score /\ value score < 5 # 2 ->
     tide_risk_level score = ("Moderate", "🟡", "risk-moderate")) /\
  (value score < 3 # 2 ->
     tide_risk_level score = ("Low", "🟢", "risk-low")) /\
  tide_risk_level 2.5 = ("High", "🔴", "risk-high") /\
  tide_risk_level 2.4999 = ("Moderate", "🟡", "risk-moderate") /\
  tide_risk_level 1.5 = ("Moderate", "🟡", "risk-moderate") /\
  tide_risk_level 1.4999 = ("Low", "🟢", "risk-low").
Proof.
  intros F. unfold tide_risk_level. repeat split.
  - intros H. apply (ge_2_5 score F) in H. now rewrite H.
  - intros [H1 H2].
    apply (not_ge_2_5 score F) in H2. apply (ge_1_5 score F) in H1.
    now rewrite H2, H1.
  - intros H. apply (not_ge_1_5 score F) in H.
    assert (H' : ge score 2.5 = false).
    { apply (not_ge_2_5 score F). apply (not_ge_1_5 score F) in H.
      eapply Qlt_trans; [exact H | reflexivity]. }
    now rewrite H', H.
Qed.

Lemma tide_risk_level_thresholds_witness :
  is_finite 2.75 = true /\
  tide_risk_level 2.75 = ("High", "🔴", "risk-high").
Proof.
  split; [reflexivity|].
  refine (proj1 (tide_risk_level_thresholds 2.75 eq_refl) _).
  vm_compute. discriminate.
Defined.
End TideThresholds.

(** ** The coastal label *)

Lemma coastal_risk_style_High (label : string) :
  coastal_risk_style label = ("🔴", "risk-high") <-> label = "High".
Proof.
  unfold coastal_risk_style.
  destruct (String.eqb_spec label "High") as [-> | N]; [easy|].
  destruct (label =? "Moderate")%string; split; congruence.
Qed.

Lemma coastal_risk_style_Moderate (label : string) :
  coastal_risk_style label = ("🟡", "risk-moderate") <-> label = "Moderate".
Proof.
  unfold coastal_risk_style.
  destruct (String.eqb_spec label "High") as [-> | N]; [easy|].
  destruct (String.eqb_spec label "Moderate") as [-> | N']; [easy|].
  split; congruence.
Qed.

Lemma coastal_risk_style_other (label : string) :
  label <> "High" -> label <> "Moderate" ->
  coastal_risk_style label = ("🟢", "risk-low").
Proof.
  intros N N'. unfold coastal_risk_style.
  destruct (String.eqb_spec label "High"); [easy|].
  destruct (String.eqb_spec label "Moderate"); [easy|]. reflexivity.
Qed.

(** What [make_predictions] leaves under ['coastal'] when the coastal model
    returns a label, whatever the tide model does. *)
Lemma make_predictions_coastal_label (tide_model : option TideModel)
    (model : CoastalModel) (lat lon : float) (label : string) :
  model lat lon = Returns label ->
  exists results,
    make_predictions tide_model (Some model) lat lon = Returns results /\
    results !! "coastal" =
      Some (CoastalResult label (coastal_risk_style label).1
                                (coastal_risk_style label).2).
Proof.
  intros H. run_block. rewrite H.
  destruct (coastal_risk_style label) as [color class]. cbn [fst snd].
  destruct tide_model as [tm|]; [destruct (tm lat lon) as [score | e]|].
  - destruct (tide_risk_level score) as [[l c] k].
    eexists; split; [reflexivity|]. apply lookup_insert_eq.
  - eexists; split; [reflexivity|]. apply lookup_insert_eq.
  - eexists; split; [reflexivity|]. apply lookup_insert_eq.
Qed.

(** C3.  For every label, the coastal classification is High (red,
    [risk-high]) exactly when the label is "High", Moderate exactly when it
    is "Moderate", and Low for every other string, among them "Low", the
    empty string and unrecognised values; and a label never makes
    [make_predictions] raise: the entry under ['coastal'] is a successful
    one that carries the label and its classification. *)
Theorem coastal_label_classification (label : string) :
  (coastal_risk_style label = ("🔴", "risk-high") <-> label = "High") /\
  (coastal_risk_style label = ("🟡", "risk-moderate") <->
     label = "Moderate") /\
  (label <> "High" -> label <> "Moderate" ->
     coastal_risk_style label = ("🟢", "risk-low")) /\
  coastal_risk_style "Low" = ("🟢", "risk-low") /\
  coastal_risk_style "" = ("🟢", "risk-low") /\
  coastal_risk_style "high" = ("🟢", "risk-low") /\
  coastal_risk_style "Severe" = ("🟢", "risk-low") /\
  (forall (tide_model : option TideModel) (model : CoastalModel)
          (lat lon : float),
     model lat lon = Returns label ->
     exists results,
       make_predictions tide_model (Some model) lat lon = Returns results /\
       results !! "coastal" =
         Some (CoastalResult label (coastal_risk_style label).1
                                   (coastal_risk_style label).2)).
Proof.
  split; [apply coastal_risk_style_High|].
  split; [apply coastal_risk_style_Moderate|].
  split; [apply coastal_risk_style_other|].
  do 4 (split; [reflexivity|]).
  intros tide_model model lat lon H.
  now apply make_predictions_coastal_label.
Qed.

(** ** Aggregation from the derived bands *)

(** C7.  For every tide score and coastal label, the verdict that
    [display_prediction_results] computes by testing the raw score against
    2.5 and 1.5 again is the verdict computed from the bands that
    [make_predictions] has already derived. *)
Theorem overall_risk_by_bands (score : float) (label : string) :
  overall_risk score label =
    Spec.overall_style
      (Spec.overall_by_bands (derived_tide_band score)
                             (derived_coastal_band label)).
Proof.
  unfold derived_tide_band, derived_coastal_band, tide_risk_level,
    coastal_risk_style, overall_risk.
  destruct (Float64.ge score 2.5), (Float64.ge score 1.5),
    (label =? "High")%string, (label =? "Moderate")%string; reflexivity.
Qed.

(** ** What [make_predictions] stores and what the page shows *)

(** [make_predictions] always returns, and its two keys hold what the two
    blocks computed, each from its own model only. *)
Lemma make_predictions_returns (tide_model : option TideModel)
    (coastal_model : option CoastalModel) (lat lon : float) :
  exists results,
    make_predictions tide_model coastal_model lat lon = Returns results /\
    results !! "tide" = tide_entry tide_model lat lon /\
    results !! "coastal" = coastal_entry coastal_model lat lon.
Proof.
  run_block. unfold tide_entry, coastal_entry.
  destruct tide_model as [tm|]; [destruct (tm lat lon) as [score | e]|];
    try destruct (tide_risk_level score) as [[l c] k];
    (destruct coastal_model as [cm|];
       [destruct (cm lat lon) as [label | e']|]);
    try destruct (coastal_risk_style label) as [c' k'];
    eexists; (split; [reflexivity|]); split;
    repeat first [ rewrite lookup_insert_eq
                 | rewrite lookup_insert_ne by done
                 | rewrite lookup_empty ]; reflexivity.
Qed.

(** The cards for two successful entries. *)
Lemma display_both (results : gmap string entry) (lat lon : float)
    (score : float) (l c k : string) (l' c' k' : string) :
  results !! "tide" = Some (TideResult score l c k) ->
  results !! "coastal" = Some (CoastalResult l' c' k') ->
  display_prediction_results results lat lon [] =
    (Returns tt,
     [ResultsHeader; LocationInfo lat lon; TideCard k c l score;
      CoastalCard k' c' l';
      OverallCard (overall_risk score l').1.1 (overall_risk score l').1.2
                  (overall_risk score l').2]).
Proof.
  intros Ht Hc. run_block. unfold available. rewrite Ht, Hc. cbn.
  destruct (overall_risk score l') as [[oc ot] od]. reflexivity.
Qed.

(** Without one of the two successful entries there is no overall card. *)
Lemma display_without_overall (results : gmap string entry) (lat lon : float)
    (shown0 : list element) :
  available "tide" results && available "coastal" results = false ->
  (forall e, results !! "tide" = Some e -> forall l c k, e <> CoastalResult l c k) ->
  exists shown,
    display_prediction_results results lat lon shown0 =
      (Returns tt, shown0 ++ shown) /\
    has_overall shown = false.
Proof.
  intros Hav Hshape. run_block. unfold available in *.
  destruct (results !! "tide") as [[score l c k | l c k | err]|] eqn:Ht;
    cbn in *.
  - destruct (results !! "coastal") as [[score' l' c' k' | l' c' k' | err']|];
      cbn in *; try discriminate;
      eexists; rewrite <- !app_assoc; (split; [reflexivity|]); reflexivity.
  - exfalso. eapply Hshape; reflexivity.
  - destruct (results !! "coastal") as [[score' l' c' k' | l' c' k' | err']|];
      cbn in *;
      eexists; rewrite <- !app_assoc; (split; [reflexivity|]); reflexivity.
  - destruct (results !! "coastal") as [[score' l' c' k' | l' c' k' | err']|];
      cbn in *;
      eexists; rewrite <- !app_assoc; (split; [reflexivity|]); reflexivity.
Qed.

Lemma available_lookup (key : string) (results : gmap string entry) :
  available key results = true <->
  exists e, results !! key = Some e /\ success e = true.
Proof.
  unfold available. destruct (results !! key) as [e|].
  - split; [intros H; now exists e | intros (e' & [= <-] & H); exact H].
  - split; [discriminate | intros (e' & [=] & _)].
Qed.

Lemma tide_entry_success (tide_model : option TideModel) (lat lon : float)
    (e : entry) :
  tide_entry tide_model lat lon = Some e ->
  (success e = true <->
   exists model score, tide_model = Some model /\ model lat lon = Returns score) /\
  (forall l c k, e <> CoastalResult l c k).
Proof.
  unfold tide_entry. destruct tide_model as [tm|]; [|discriminate].
  destruct (tm lat lon) as [score | err] eqn:E.
  - destruct (tide_risk_level score) as [[l c] k]. intros [= <-].
    split; [|discriminate]. split; [|reflexivity].
    intros _. now exists tm, score.
  - intros [= <-]. split; [|discriminate]. split; [discriminate|].
    intros (m & s & [= <-] & H). congruence.
Qed.

Lemma coastal_entry_success (coastal_model : option CoastalModel)
    (lat lon : float) (e : entry) :
  coastal_entry coastal_model lat lon = Some e ->
  (success e = true <->
   exists model label,
     coastal_model = Some model /\ model lat lon = Returns label) /\
  (forall s l c k, e <> TideResult s l c k).
Proof.
  unfold coastal_entry. destruct coastal_model as [cm|]; [|discriminate].
  destruct (cm lat lon) as [label | err] eqn:E.
  - destruct (coastal_risk_style label) as [c k]. intros [= <-].
    split; [|discriminate]. split; [|reflexivity].
    intros _. now exists cm, label.
  - intros [= <-]. split; [|discriminate]. split; [discriminate|].
    intros (m & s & [= <-] & H). congruence.
Qed.

(** Whether a signal is available after [make_predictions] is whether its
    model is there and its call returned. *)
Lemma make_predictions_available (tide_model : option TideModel)
    (coastal_model : option CoastalModel) (lat lon : float) :
  exists results,
    make_predictions tide_model coastal_model lat lon = Returns results /\
    (forall e, results !! "tide" = Some e ->
               forall l c k, e <> CoastalResult l c k) /\
    (forall e, results !! "coastal" = Some e ->
               forall s l c k, e <> TideResult s l c k) /\
    (available "tide" results = true <->
     exists model score,
       tide_model = Some model /\ model lat lon = Returns score) /\
    (available "coastal" results = true <->
     exists model label,
       coastal_model = Some model /\ model lat lon = Returns label).
Proof.
  destruct (make_predictions_returns tide_model coastal_model lat lon)
    as (results & Hr & Ht & Hc).
  exists results. split; [exact Hr|]. split; [|split; [|split]].
  - intros e He. rewrite Ht in He.
    apply (tide_entry_success _ _ _ _ He).
  - intros e He. rewrite Hc in He.
    apply (coastal_entry_success _ _ _ _ He).
  - rewrite available_lookup. rewrite Ht. split.
    + intros (e & He & Hs). now apply (tide_entry_success _ _ _ _ He).
    + intros (m & s & -> & Hm). unfold tide_entry. rewrite Hm.
      destruct (tide_risk_level s) as [[l c] k]. eexists; split; reflexivity.
  - rewrite available_lookup. rewrite Hc. split.
    + intros (e & He & Hs). now apply (coastal_entry_success _ _ _ _ He).
    + intros (m & s & -> & Hm). unfold coastal_entry. rewrite Hm.
      destruct (coastal_risk_style s) as [c k]. eexists; split; reflexivity.
Qed.

(** The page for any results of [make_predictions]: it is always drawn, and
    it has the overall card exactly when both signals are available. *)
Lemma display_overall_iff (results : gmap string entry) (lat lon : float) :
  (forall e, results !! "tide" = Some e ->
             forall l c k, e <> CoastalResult l c k) ->
  (forall e, results !! "coastal" = Some e ->
             forall s l c k, e <> TideResult s l c k) ->
  exists shown,
    display_prediction_results results lat lon [] = (Returns tt, shown) /\
    has_overall shown =
      available "tide" results && available "coastal" results.
Proof.
  intros Ht Hc.
  destruct (available "tide" results && available "coastal" results) eqn:Hav.
  - apply andb_prop in Hav as [At Ac].
    apply available_lookup in At as (et & Het & St).
    apply available_lookup in Ac as (ec & Hec & Sc).
    destruct et as [score l c k | l c k | err]; try discriminate;
      [|exfalso; eapply Ht; eauto].
    destruct ec as [score' l' c' k' | l' c' k' | err']; try discriminate;
      [exfalso; eapply Hc; eauto|].
    eexists. split; [apply (display_both _ _ _ _ _ _ _ _ _ _ Het Hec)|].
    reflexivity.
  - destruct (display_without_overall results lat lon [] Hav Ht)
      as (shown & Hd & Ho).
    exists shown. split; assumption.
Qed.

(** C4.  For every evaluation, the overall card is on the page if and only
    if both the tide entry and the coastal entry are present and
    successful, that is, if and only if both models are there and both
    calls returned; with exactly one signal available there is no overall
    card. *)
Theorem overall_iff_both_signals (tide_model : option TideModel)
    (coastal_model : option CoastalModel) (lat lon : float) :
  exists results shown,
    make_predictions tide_model coastal_model lat lon = Returns results /\
    display_prediction_results results lat lon [] = (Returns tt, shown) /\
    (has_overall shown = true <->
     available "tide" results = true /\ available "coastal" results = true) /\
    (available "tide" results = true <->
     exists model score,
       tide_model = Some model /\ model lat lon = Returns score) /\
    (available "coastal" results = true <->
     exists model label,
       coastal_model = Some model /\ model lat lon = Returns label) /\
    (xorb (available "tide" results) (available "coastal" results) = true ->
     has_overall shown = false).
Proof.
  destruct (make_predictions_available tide_model coastal_model lat lon)
    as (results & Hr & St & Sc & At & Ac).
  destruct (display_overall_iff results lat lon St Sc) as (shown & Hd & Ho).
  exists results, shown.
  split; [exact Hr|]. split; [exact Hd|].
  split; [|split; [exact At|split; [exact Ac|]]].
  - rewrite Ho, andb_true_iff. reflexivity.
  - rewrite Ho.
    destruct (available "tide" results), (available "coastal" results);
      easy.
Qed.

(** The cards when the tide entry is missing or failed and the coastal one
    is successful. *)
Lemma display_coastal_only (results : gmap string entry) (lat lon : float)
    (l' c' k' : string) :
  available "tide" results = false ->
  results !! "coastal" = Some (CoastalResult l' c' k') ->
  display_prediction_results results lat lon [] =
    (Returns tt,
     [ResultsHeader; LocationInfo lat lon;
      ModelUnavailable "Tide Risk Analysis"; CoastalCard k' c' l']).
Proof.
  intros Ht Hc. run_block. unfold available in *. rewrite Hc.
  destruct (results !! "tide") as [e|]; cbn in *; rewrite ?Ht; reflexivity.
Qed.

(** The cards when the coastal entry is missing or failed and the tide one
    is successful. *)
Lemma display_tide_only (results : gmap string entry) (lat lon : float)
    (score : float) (l c k : string) :
  results !! "tide" = Some (TideResult score l c k) ->
  available "coastal" results = false ->
  display_prediction_results results lat lon [] =
    (Returns tt,
     [ResultsHeader; LocationInfo lat lon; TideCard k c l score;
      ModelUnavailable "Coastal Flood Risk"]).
Proof.
  intros Ht Hc. run_block. unfold available in *. rewrite Ht.
  destruct (results !! "coastal") as [e|]; cbn in *; rewrite ?Hc; reflexivity.
Qed.

Lemma overall_risk_cases (score : float) (label : string) :
  (Float64.ge score 2.5 = true \/ label = "High" ->
   overall_risk score label =
     ("risk-high", "🔴 CRITICAL RISK",
      "Avoid all coastal activities immediately")) /\
  (~ (Float64.ge score 2.5 = true \/ label = "High") ->
   Float64.ge score 1.5 = true \/ label = "Moderate" ->
   overall_risk score label =
     ("risk-moderate", "🟡 MODERATE RISK",
      "Exercise extreme caution near coastal areas")) /\
  (~ (Float64.ge score 2.5 = true \/ label = "High") ->
   ~ (Float64.ge score 1.5 = true \/ label = "Moderate") ->
   overall_risk score label =
     ("risk-low", "🟢 LOW RISK",
      "Generally safe conditions for coastal activities")).
Proof.
  unfold overall_risk.
  destruct (String.eqb_spec label "High") as [EH | NH],
           (String.eqb_spec label "Moderate") as [EM | NM],
           (Float64.ge score 2.5), (Float64.ge score 1.5); cbn;
    repeat split; intros; try reflexivity; exfalso; intuition congruence.
Qed.

(** C1.  For every analysis where both model calls succeed, the page ends
    with the overall card, whose verdict is High if the raw tide score is
    at least 2.5 or the coastal label is "High", else Moderate if the score
    is at least 1.5 or the label is "Moderate", else Low; each verdict
    carries its fixed advisory string.  For a finite score the two float
    comparisons are the comparisons of its exact value with 5/2 and 3/2. *)
Theorem overall_verdict (tide_model : TideModel) (coastal_model : CoastalModel)
    (lat lon score : float) (label : string) :
  tide_model lat lon = Returns score ->
  coastal_model lat lon = Returns label ->
  exists results shown class text desc,
    make_predictions (Some tide_model) (Some coastal_model) lat lon =
      Returns results /\
    display_prediction_results results lat lon [] = (Returns tt, shown) /\
    last shown = Some (OverallCard class text desc) /\
    (Float64.ge score 2.5 = true \/ label = "High" ->
     (class, text, desc) =
       ("risk-high", "🔴 CRITICAL RISK",
        "Avoid all coastal activities immediately")) /\
    (~ (Float64.ge score 2.5 = true \/ label = "High") ->
     Float64.ge score 1.5 = true \/ label = "Moderate" ->
     (class, text, desc) =
       ("risk-moderate", "🟡 MODERATE RISK",
        "Exercise extreme caution near coastal areas")) /\
    (~ (Float64.ge score 2.5 = true \/ label = "High") ->
     ~ (Float64.ge score 1.5 = true \/ label = "Moderate") ->
     (class, text, desc) =
       ("risk-low", "🟢 LOW RISK",
        "Generally safe conditions for coastal activities")) /\
    (is_finite score = true ->
     (Float64.ge score 2.5 = true <-> (5 # 2 <= Float64.value score)%Q) /\
     (Float64.ge score 1.5 = true <-> (3 # 2 <= Float64.value score)%Q)).
Proof.
  intros Ht Hc.
  destruct (make_predictions_returns (Some tide_model) (Some coastal_model)
              lat lon) as (results & Hr & Et & Ec).
  unfold tide_entry in Et. unfold coastal_entry in Ec. rewrite Ht in Et.
  rewrite Hc in Ec.
  destruct (tide_risk_level score) as [[l c] k].
  destruct (coastal_risk_style label) as [c' k'].
  pose proof (display_both results lat lon _ _ _ _ _ _ _ Et Ec) as Hd.
  pose proof (overall_risk_cases score label) as (CH & CM & CL).
  destruct (overall_risk score label) as [[oc ot] od]. cbn [fst snd] in Hd.
  eexists results, _, oc, ot, od.
  split; [exact Hr|]. split; [exact Hd|]. split; [reflexivity|].
  split; [exact CH|]. split; [exact CM|]. split; [exact CL|].
  intros F. split; [apply (ge_2_5 score F) | apply (ge_1_5 score F)].
Qed.

Lemma overall_verdict_witness :
  steady_tide 53.3498%float (-6.2603)%float = Returns 1.8%float /\
  calm_coast 53.3498%float (-6.2603)%float = Returns "Low" /\
  exists results shown class text desc,
    make_predictions (Some steady_tide) (Some calm_coast) 53.3498 (-6.2603) =
      Returns results /\
    display_prediction_results results 53.3498 (-6.2603) [] =
      (Returns tt, shown) /\
    last shown = Some (OverallCard class text desc) /\
    (class, text, desc) =
      ("risk-moderate", "🟡 MODERATE RISK",
       "Exercise extreme caution near coastal areas").
Proof.
  destruct (overall_verdict steady_tide calm_coast 53.3498 (-6.2603) 1.8 "Low"
              eq_refl eq_refl)
    as (results & shown & class & text & desc & Hr & Hd & Hl & _ & HM & _).
  split; [reflexivity|]. split; [reflexivity|].
  exists results, shown, class, text, desc.
  split; [exact Hr|]. split; [exact Hd|]. split; [exact Hl|].
  apply HM.
  - intros [H | H]; discriminate H.
  - left. reflexivity.
Defined.

(** C5.  For every pair of models, [make_predictions] returns: an exception
    raised by one model's [predict] is caught where it is raised and stored
    as that signal's failed entry, with its message; the entry of the other
    signal is what it is with any other model in place of the failing one,
    and its card is shown next to the unavailable one. *)
Theorem prediction_failure_is_per_signal (tide_model : option TideModel)
    (coastal_model : option CoastalModel) (lat lon : float) :
  exists results,
    make_predictions tide_model coastal_model lat lon = Returns results /\
    (forall model e,
       tide_model = Some model -> model lat lon = Raises e ->
       results !! "tide" = Some (Failure (str e))) /\
    (forall model e,
       coastal_model = Some model -> model lat lon = Raises e ->
       results !! "coastal" = Some (Failure (str e))) /\
    (forall tide_model' : option TideModel,
       exists results',
         make_predictions tide_model' coastal_model lat lon =
           Returns results' /\
         results' !! "coastal" = results !! "coastal") /\
    (forall coastal_model' : option CoastalModel,
       exists results',
         make_predictions tide_model coastal_model' lat lon =
           Returns results' /\
         results' !! "tide" = results !! "tide") /\
    (forall model e model' label,
       tide_model = Some model -> model lat lon = Raises e ->
       coastal_model = Some model' -> model' lat lon = Returns label ->
       display_prediction_results results lat lon [] =
         (Returns tt,
          [ResultsHeader; LocationInfo lat lon;
           ModelUnavailable "Tide Risk Analysis";
           CoastalCard (coastal_risk_style label).2
                       (coastal_risk_style label).1 label])) /\
    (forall model score model' e,
       tide_model = Some model -> model lat lon = Returns score ->
       coastal_model = Some model' -> model' lat lon = Raises e ->
       display_prediction_results results lat lon [] =
         (Returns tt,
          [ResultsHeader; LocationInfo lat lon;
           TideCard (tide_risk_level score).2 (tide_risk_level score).1.2
                    (tide_risk_level score).1.1 score;
           ModelUnavailable "Coastal Flood Risk"])).
Proof.
  destruct (make_predictions_returns tide_model coastal_model lat lon)
    as (results & Hr & Et & Ec).
  exists results. split; [exact Hr|].
  split; [|split; [|split; [|split; [|split]]]].
  - intros model e -> He. rewrite Et. unfold tide_entry. now rewrite He.
  - intros model e -> He. rewrite Ec. unfold coastal_entry. now rewrite He.
  - intros tide_model'.
    destruct (make_predictions_returns tide_model' coastal_model lat lon)
      as (results' & Hr' & _ & Ec').
    exists results'. split; [exact Hr'|]. now rewrite Ec', Ec.
  - intros coastal_model'.
    destruct (make_predictions_returns tide_model coastal_model' lat lon)
      as (results' & Hr' & Et' & _).
    exists results'. split; [exact Hr'|]. now rewrite Et', Et.
  - intros model e model' label -> He -> Hl.
    unfold tide_entry in Et. unfold coastal_entry in Ec.
    rewrite He in Et. rewrite Hl in Ec.
    destruct (coastal_risk_style label) as [c' k']. cbn [fst snd].
    apply display_coastal_only; [|exact Ec].
    unfold available. now rewrite Et.
  - intros model score model' e -> Hs -> He.
    unfold tide_entry in Et. unfold coastal_entry in Ec.
    rewrite Hs in Et. rewrite He in Ec.
    destruct (tide_risk_level score) as [[l c] k]. cbn [fst snd].
    apply display_tide_only; [exact Et|].
    unfold available. now rewrite Ec.
Qed.

(** ** Loading the models and the blocked session *)

Lemma initialize_stored (s : Session) : initialize (stored s) = s.
Proof. destruct s; reflexivity. Qed.

Lemma load_models_both_absent (fs : filesystem) :
  tide_prediction_joblib fs = None ->
  coastal_risk_model_joblib fs = None ->
  load_models fs =
    {| tide_model_var := None; coastal_model_var := None;
       actions := [PathExists "tide_prediction.joblib";
                   StError "❌ tide_prediction.joblib not found";
                   PathExists "coastal_risk_model.joblib";
                   StError "❌ coastal_risk_model.joblib not found"] |}.
Proof.
  intros Ht Hc. unfold load_models, load_models_body. rewrite Ht, Hc.
  reflexivity.
Qed.

Lemma load_models_tide_raises (fs : filesystem) (e : exn) :
  tide_prediction_joblib fs = Some (Raises e) ->
  load_models fs =
    {| tide_model_var := None; coastal_model_var := None;
       actions := [PathExists "tide_prediction.joblib";
                   JoblibLoad "tide_prediction.joblib";
                   StError ("Error loading models: " ++ str e)] |}.
Proof.
  intros Ht. unfold load_models, load_models_body. rewrite Ht. reflexivity.
Qed.

(** Without any model the script stops at the message, whatever the
    session state and the widgets. *)
Lemma app2_blocked (folium : bool) (loaded : load_state) (st : session_state)
    (w : widgets) :
  tide_model_var loaded = None -> coastal_model_var loaded = None ->
  app2 folium loaded st w =
    {| session := initialize st; rendered := [ModelFilesMissing];
       ctl := Stopped |}.
Proof. intros Ht Hc. unfold app2. rewrite Ht, Hc. reflexivity. Qed.

Lemma length_reruns (folium : bool) (loaded : load_state) (ws : list widgets) :
  forall st, length (reruns folium loaded st ws) = length ws.
Proof.
  induction ws as [|w ws IH]; intros st; cbn [reruns length];
    [reflexivity | now rewrite IH].
Qed.

Lemma reruns_blocked (folium : bool) (loaded : load_state) (ws : list widgets) :
  tide_model_var loaded = None -> coastal_model_var loaded = None ->
  forall st,
    initialize st =
      {| page := "home"; latitude := 53.3498; longitude := (-6.2603) |} ->
    Forall blocked (reruns folium loaded st ws).
Proof.
  intros Ht Hc. induction ws as [|w ws IH]; intros st Hst; cbn [reruns].
  - constructor.
  - rewrite (app2_blocked folium loaded st w Ht Hc). cbn [session].
    constructor.
    + unfold blocked. cbn. now rewrite Hst.
    + apply IH. now rewrite initialize_stored.
Qed.

Lemma analyze_not_stopped (tide_model : option TideModel)
    (coastal_model : option CoastalModel) (lat lon : float) (s : Session)
    (shown : list element) :
  ctl (analyze tide_model coastal_model lat lon s shown) <> Stopped /\
  ctl (analyze tide_model coastal_model lat lon s shown) <> Rerun /\
  session (analyze tide_model coastal_model lat lon s shown) = s.
Proof.
  unfold analyze.
  destruct (make_predictions tide_model coastal_model lat lon) as [r | e];
    [|now cbn].
  destruct (display_prediction_results r lat lon (shown ++ [Balloons]))
    as [[[] | e] shown']; now cbn.
Qed.

Lemma footer_ctl (r : run) : ctl (footer r) = ctl r.
Proof. unfold footer. destruct (ctl r) eqn:E; cbn; congruence. Qed.

Lemma footer_session (r : run) : session (footer r) = session r.
Proof. unfold footer. destruct (ctl r); reflexivity. Qed.

(** With a model loaded the script never stops. *)
Lemma app2_not_stopped (folium : bool) (loaded : load_state)
    (st : session_state) (w : widgets) :
  is_None (tide_model_var loaded) && is_None (coastal_model_var loaded)
    = false ->
  ctl (app2 folium loaded st w) <> Stopped.
Proof.
  intros H. unfold app2. rewrite H. rewrite footer_ctl.
  destruct (page (initialize st) =? "home")%string.
  { unfold home_page.
    destruct (btn_map w); [easy|]. destruct (btn_coordinates w); easy. }
  destruct (page (initialize st) =? "map")%string.
  { unfold map_page. destruct (btn_back w); [easy|].
    destruct folium; [|easy].
    assert (ctl (if btn_analyze w
                 then analyze (tide_model_var loaded) (coastal_model_var loaded)
                        (latitude (initialize st)) (longitude (initialize st))
                        (initialize st)
                        [MapTitle; FoliumMap (latitude (initialize st))
                                             (longitude (initialize st))]
                 else {| session := initialize st;
                         rendered := [MapTitle;
                                      FoliumMap (latitude (initialize st))
                                                (longitude (initialize st))];
                         ctl := Completed |}) <> Stopped) as A.
    { destruct (btn_analyze w); [apply analyze_not_stopped | easy]. }
    destruct (last_clicked w) as [[clat clng]|]; [|exact A].
    destruct (Float64.truthy clat && Float64.truthy clng); [easy | exact A]. }
  destruct (page (initialize st) =? "coordinates")%string; [|easy].
  unfold coordinates_page. destruct (btn_back w); [easy|].
  destruct (btn_analyze w); [|easy].
  match goal with |- context [if ?c then _ else _] => destruct c end;
    [apply analyze_not_stopped | easy].
Qed.

(** C6.  When both model artifacts are absent at load time, no model is
    loaded and every run of the session stops at the blocking message:
    nothing else is rendered, so no report, and the session state stays at
    its defaults whatever the user does.  With at least one model loaded
    the script never stops there. *)
Theorem both_models_absent_blocks (folium : bool) (fs : filesystem)
    (ws : list widgets) :
  tide_prediction_joblib fs = None ->
  coastal_risk_model_joblib fs = None ->
  tide_model_var (load_models fs) = None /\
  coastal_model_var (load_models fs) = None /\
  length (app_session folium fs ws) = length ws /\
  Forall blocked (app_session folium fs ws) /\
  (forall (loaded : load_state) (st : session_state) (w : widgets),
     is_None (tide_model_var loaded) && is_None (coastal_model_var loaded)
       = false ->
     ctl (app2 folium loaded st w) <> Stopped).
Proof.
  intros Ht Hc. rewrite (load_models_both_absent fs Ht Hc).
  split; [reflexivity|]. split; [reflexivity|].
  split; [apply length_reruns|]. split.
  - unfold app_session. rewrite (load_models_both_absent fs Ht Hc).
    now apply reruns_blocked.
  - intros loaded st w. apply app2_not_stopped.
Qed.

(** C9.  If loading the tide artifact raises, [load_models] goes straight
    to its handler: the coastal artifact is neither looked for nor loaded,
    both models come back absent, and every run of the session stops at
    the blocking message, whatever the coastal artifact is. *)
Theorem tide_load_failure_blocks (folium : bool) (fs : filesystem) (e : exn)
    (ws : list widgets) :
  tide_prediction_joblib fs = Some (Raises e) ->
  actions (load_models fs) =
    [PathExists "tide_prediction.joblib";
     JoblibLoad "tide_prediction.joblib";
     StError ("Error loading models: " ++ str e)] /\
  (JoblibLoad "coastal_risk_model.joblib" ∉ actions (load_models fs)) /\
  (PathExists "coastal_risk_model.joblib" ∉ actions (load_models fs)) /\
  tide_model_var (load_models fs) = None /\
  coastal_model_var (load_models fs) = None /\
  length (app_session folium fs ws) = length ws /\
  Forall blocked (app_session folium fs ws).
Proof.
  intros Ht. unfold app_session. rewrite (load_models_tide_raises fs e Ht).
  cbn [actions tide_model_var coastal_model_var].
  split; [reflexivity|].
  split; [rewrite !elem_of_cons, elem_of_nil; intros [|[|[|]]]; congruence|].
  split; [rewrite !elem_of_cons, elem_of_nil; intros [|[|[|]]]; congruence|].
  split; [reflexivity|]. split; [reflexivity|].
  split; [apply length_reruns|].
  now apply reruns_blocked.
Qed.

Lemma both_models_absent_blocks_witness :
  tide_prediction_joblib empty_store = None /\
  coastal_risk_model_joblib empty_store = None /\
  Forall blocked (app_session true empty_store [press_map; press_analyze]).
Proof.
  split; [reflexivity|]. split; [reflexivity|].
  apply (both_models_absent_blocks true empty_store [press_map; press_analyze]
           eq_refl eq_refl).
Defined.

Lemma tide_load_failure_blocks_witness :
  tide_prediction_joblib corrupt_tide_store
    = Some (Raises (Exception "invalid load key")) /\
  coastal_model_var (load_models corrupt_tide_store) = None /\
  Forall blocked (app_session true corrupt_tide_store [press_map]).
Proof.
  split; [reflexivity|].
  split;
    apply (tide_load_failure_blocks true corrupt_tide_store
             (Exception "invalid load key") [press_map] eq_refl).
Defined.

(** ** Map clicks *)

(** Whatever the results, [display_prediction_results] only adds its own
    cards to the page. *)
Lemma display_elements (results : gmap string entry) (lat lon : float)
    (shown0 : list element) :
  exists o cards,
    display_prediction_results results lat lon shown0 = (o, shown0 ++ cards) /\
    Forall result_element cards.
Proof.
  run_block. unfold available.
  destruct (results !! "tide") as [[score l c k | l c k | err]|];
    destruct (results !! "coastal") as [[score' l' c' k' | l' c' k' | err']|];
    cbn; try destruct (overall_risk _ _) as [[oc ot] od];
    do 2 eexists; rewrite <- ?app_assoc;
    (split; [reflexivity|]); repeat constructor.
Qed.

Lemma analyze_rendered (tide_model : option TideModel)
    (coastal_model : option CoastalModel) (lat lon : float) (s : Session)
    (shown : list element) (a b : float) :
  LocationSelected a b ∈
    rendered (analyze tide_model coastal_model lat lon s shown) ->
  LocationSelected a b ∈ shown.
Proof.
  unfold analyze.
  destruct (make_predictions tide_model coastal_model lat lon) as [r | e];
    [|now cbn].
  destruct (display_elements r lat lon (shown ++ [Balloons]))
    as (o & cards & -> & Hc).
  assert (LocationSelected a b ∉ cards) as N.
  { intros H. rewrite Forall_forall in Hc. apply (Hc _ H). }
  destruct o as [[]|e]; cbn [rendered];
    rewrite !elem_of_app, list_elem_of_singleton; intros [[H | H] | H];
    solve [assumption | discriminate | contradiction].
Qed.

Lemma footer_rendered (r : run) (a b : float) :
  LocationSelected a b ∈ rendered (footer r) ->
  LocationSelected a b ∈ rendered r.
Proof.
  unfold footer. destruct (ctl r); cbn [rendered]; try tauto.
  rewrite elem_of_app, list_elem_of_singleton. intros [H | H];
    [assumption | discriminate].
Qed.


Lemma map_page_ignores (folium : bool) (tide_model : option TideModel)
    (coastal_model : option CoastalModel) (s : Session) (w : widgets) :
  btn_back w = false -> ignored_click (last_clicked w) ->
  session (map_page folium tide_model coastal_model s w) = s /\
  ctl (map_page folium tide_model coastal_model s w) <> Rerun /\
  (forall a b,
     LocationSelected a b ∉
       rendered (map_page folium tide_model coastal_model s w)).
Proof.
  intros Hb Hi. unfold map_page. rewrite Hb.
  destruct folium.
  - assert (E :
      match last_clicked w with
      | Some (clicked_lat, clicked_lng) =>
          Float64.truthy clicked_lat && Float64.truthy clicked_lng
      | None => false
      end = false).
    { destruct (last_clicked w) as [[lat lng]|]; [|reflexivity].
      unfold Float64.truthy. cbn in Hi.
      destruct Hi as [-> | ->]; [reflexivity | apply andb_false_r]. }
    set (shown := [MapTitle; FoliumMap (latitude s) (longitude s)]).
    assert (N : forall a b, LocationSelected a b ∉ shown).
    { intros a b. subst shown.
      rewrite !elem_of_cons, elem_of_nil. intros [|[|]]; congruence. }
    destruct (last_clicked w) as [[lat lng]|]; [rewrite E|];
      (destruct (btn_analyze w);
       [ destruct (analyze_not_stopped tide_model coastal_model
                     (latitude s) (longitude s) s shown) as (_ & R & S);
         split; [exact S|]; split; [exact R|];
         intros a b H; apply analyze_rendered in H; exact (N a b H)
       | cbn; split; [reflexivity|]; split; [discriminate | exact N] ]).
  - cbn. split; [reflexivity|]. split; [discriminate|].
    intros a b. rewrite !elem_of_cons, elem_of_nil. intros [|[|[|]]]; congruence.
Qed.

(** C10.  On the map page, a click whose latitude or longitude equals 0.0,
    or whose payload is missing, is ignored without a trace: the run leaves
    the session coordinate and page as they were, shows no "location
    selected" message and asks for no rerun. *)
Theorem zero_click_is_ignored (folium : bool) (loaded : load_state)
    (s : Session) (w : widgets) :
  page s = "map" -> btn_back w = false -> ignored_click (last_clicked w) ->
  session (app2 folium loaded (stored s) w) = s /\
  ctl (app2 folium loaded (stored s) w) <> Rerun /\
  (forall a b,
     LocationSelected a b ∉ rendered (app2 folium loaded (stored s) w)).
Proof.
  intros Hp Hb Hi. unfold app2. rewrite initialize_stored.
  destruct (is_None (tide_model_var loaded) &&
            is_None (coastal_model_var loaded)).
  - cbn. split; [reflexivity|]. split; [discriminate|].
    intros a b. rewrite list_elem_of_singleton. discriminate.
  - rewrite Hp. cbn [String.eqb Ascii.eqb Bool.eqb].
    destruct (map_page_ignores folium (tide_model_var loaded)
                (coastal_model_var loaded) s w Hb Hi) as (S & R & N).
    rewrite footer_session, footer_ctl.
    split; [exact S|]. split; [exact R|].
    intros a b H. apply footer_rendered in H. exact (N a b H).
Qed.

Lemma zero_click_is_ignored_witness :
  page on_map_at_dublin = "map" /\
  btn_back (click 0 9.35) = false /\
  ignored_click (last_clicked (click 0 9.35)) /\
  session (app2 true both_loaded (stored on_map_at_dublin) (click 0 9.35))
    = on_map_at_dublin.
Proof.
  split; [reflexivity|]. split; [reflexivity|].
  split; [left; reflexivity|].
  apply (zero_click_is_ignored true both_loaded on_map_at_dublin
           (click 0 9.35) eq_refl eq_refl (or_introl eq_refl)).
Defined.

(** A click on the map at a latitude and a longitude that are both truthy
    selects that location and stays on the map page. *)
Lemma map_click_selects (loaded : load_state) (s : Session) (w : widgets)
    (lat lng : float) :
  is_None (tide_model_var loaded) && is_None (coastal_model_var loaded)
    = false ->
  page s = "map" -> btn_back w = false ->
  last_clicked w = Some (lat, lng) ->
  Float64.truthy lat = true -> Float64.truthy lng = true ->
  app2 true loaded (stored s) w =
    {| session := {| page := "map"; latitude := lat; longitude := lng |};
       rendered := [MapTitle; FoliumMap (latitude s) (longitude s);
                    LocationSelected lat lng];
       ctl := Rerun |}.
Proof.
  intros Hm Hp Hb Hc Tlat Tlng. unfold app2.
  rewrite initialize_stored, Hm, Hp. cbn [String.eqb Ascii.eqb Bool.eqb].
  unfold map_page, set_coordinate. rewrite Hb, Hc, Tlat, Tlng, Hp.
  reflexivity.
Qed.

(** C8, at a click on the equator: with both models loaded and the map
    page open at Dublin, the click at (0.0, 9.35) is dropped; the session
    keeps Dublin's coordinate and the run completes without the "location
    selected" message. *)
Theorem map_click_on_equator_is_dropped :
  app2 true both_loaded (stored on_map_at_dublin) (click 0 9.35) =
    {| session := on_map_at_dublin;
       rendered := [MapTitle; FoliumMap 53.3498 (-6.2603); Footer];
       ctl := Completed |} /\
  app2 true both_loaded (stored on_map_at_dublin) (click 0.5 9.35) =
    {| session := {| page := "map"; latitude := 0.5; longitude := 9.35 |};
       rendered := [MapTitle; FoliumMap 53.3498 (-6.2603);
                    LocationSelected 0.5 9.35];
       ctl := Rerun |}.
Proof. split; reflexivity. Qed.

(** ** More on [load_models] *)

(** X1.  [load_models] returns the tide model exactly when its artifact
    exists and loads.  It returns the coastal model exactly when its
    artifact exists and loads and loading the tide artifact did not raise;
    so a coastal artifact that fails to load costs only the coastal model,
    while a tide artifact that fails to load costs both. *)
Theorem load_models_result (fs : filesystem) :
  tide_model_var (load_models fs) =
    match tide_prediction_joblib fs with
    | Some (Returns model) => Some model
    | _ => None
    end /\
  coastal_model_var (load_models fs) =
    match tide_prediction_joblib fs, coastal_risk_model_joblib fs with
    | Some (Raises _), _ => None
    | _, Some (Returns model) => Some model
    | _, _ => None
    end.
Proof.
  unfold load_models, load_models_body.
  destruct (tide_prediction_joblib fs) as [[tm | e]|],
           (coastal_risk_model_joblib fs) as [[cm | e']|];
    split; reflexivity.
Qed.

(** X2.  [load_models] is never silent about a model it does not return:
    its trace holds an [st.error] message if and only if one of the two
    models comes back [None]. *)
Theorem load_models_reports_missing (fs : filesystem) :
  (exists msg, StError msg ∈ actions (load_models fs)) <->
  tide_model_var (load_models fs) = None \/
  coastal_model_var (load_models fs) = None.
Proof.
  unfold load_models, load_models_body.
  destruct (tide_prediction_joblib fs) as [[tm | e]|],
           (coastal_risk_model_joblib fs) as [[cm | e']|]; cbn;
    (split;
     [ intros [msg H];
       repeat (apply elem_of_cons in H as [H | H]; [try discriminate H|]);
       try (apply elem_of_nil in H; contradiction);
       solve [left; reflexivity | right; reflexivity]
     | intros [H | H]; try discriminate H;
       eexists; repeat first [ apply list_elem_of_here | apply list_elem_of_further ] ]).
Qed.

(** X3.  [joblib.load] is only called on a path that exists, and the
    coastal artifact is only looked for after the tide artifact has been
    dealt with: a load of either path in the trace means that the file is
    there, and any access to the coastal path means that the tide artifact
    was absent or loaded. *)
Theorem load_models_trace (fs : filesystem) :
  (JoblibLoad "tide_prediction.joblib" ∈ actions (load_models fs) ->
   is_None (tide_prediction_joblib fs) = false) /\
  (JoblibLoad "coastal_risk_model.joblib" ∈ actions (load_models fs) ->
   is_None (coastal_risk_model_joblib fs) = false) /\
  (PathExists "coastal_risk_model.joblib" ∈ actions (load_models fs) ->
   forall e, tide_prediction_joblib fs <> Some (Raises e)).
Proof.
  unfold load_models, load_models_body.
  destruct (tide_prediction_joblib fs) as [[tm | e]|],
           (coastal_risk_model_joblib fs) as [[cm | e']|]; cbn;
    (split; [|split]); intros H; try reflexivity; try discriminate;
    repeat (apply elem_of_cons in H as [H | H]; [discriminate H|]);
    apply elem_of_nil in H; contradiction.
Qed.

(** ** More on [make_predictions] and the bands *)

(** X4.  The dictionary returned by [make_predictions] has the key ['tide']
    exactly when a tide model was passed, the key ['coastal'] exactly when
    a coastal model was passed (in both cases whether or not the call
    succeeded), and no other key. *)
Theorem make_predictions_keys (tide_model : option TideModel)
    (coastal_model : option CoastalModel) (lat lon : float) :
  exists results,
    make_predictions tide_model coastal_model lat lon = Returns results /\
    (results !! "tide" = None <-> tide_model = None) /\
    (results !! "coastal" = None <-> coastal_model = None) /\
    (forall key, key <> "tide" -> key <> "coastal" -> results !! key = None).
Proof.
  run_block.
  destruct tide_model as [tm|]; [destruct (tm lat lon) as [score | e]|];
    try destruct (tide_risk_level score) as [[l c] k];
    (destruct coastal_model as [cm|];
       [destruct (cm lat lon) as [label | e']|]);
    try destruct (coastal_risk_style label) as [c' k'];
    eexists; (split; [reflexivity|]);
    (split; [|split]);
    try (intros key Nt Nc);
    repeat first [ rewrite lookup_insert_eq
                 | rewrite lookup_insert_ne by done
                 | rewrite lookup_empty ];
    try reflexivity; split; intros H; solve [discriminate H | reflexivity].
Qed.

Lemma derived_tide_band_cases (score : float) :
  derived_tide_band score =
    if Float64.ge score 2.5 then Spec.High
    else if Float64.ge score 1.5 then Spec.Moderate else Spec.Low.
Proof.
  unfold derived_tide_band, tide_risk_level.
  destruct (Float64.ge score 2.5), (Float64.ge score 1.5); reflexivity.
Qed.

(** X5.  The tide classification is monotone: of two finite scores, the
    one with the larger value never gets the lower band. *)
Theorem tide_band_monotone (a b : float) :
  is_finite a = true -> is_finite b = true ->
  (Float64.value a <= Float64.value b)%Q ->
  band_rank (derived_tide_band a) <= band_rank (derived_tide_band b).
Proof.
  intros Fa Fb Hab. rewrite !derived_tide_band_cases.
  destruct (Float64.ge a 2.5) eqn:A2.
  - apply (ge_2_5 a Fa) in A2.
    assert (B2 : Float64.ge b 2.5 = true).
    { apply (ge_2_5 b Fb). eapply Qle_trans; eassumption. }
    rewrite B2. reflexivity.
  - destruct (Float64.ge a 1.5) eqn:A1.
    + apply (ge_1_5 a Fa) in A1.
      assert (B1 : Float64.ge b 1.5 = true).
      { apply (ge_1_5 b Fb). eapply Qle_trans; eassumption. }
      rewrite B1. destruct (Float64.ge b 2.5); cbn; lia.
    + cbn. lia.
Qed.

Lemma tide_band_monotone_witness :
  is_finite 1.2 = true /\ is_finite 1.8 = true /\
  (Float64.value 1.2 <= Float64.value 1.8)%Q /\
  band_rank (derived_tide_band 1.2) <= band_rank (derived_tide_band 1.8).
Proof.
  assert (H : (Float64.value 1.2 <= Float64.value 1.8)%Q)
    by (vm_compute; discriminate).
  split; [reflexivity|]. split; [reflexivity|]. split; [exact H|].
  exact (tide_band_monotone 1.2 1.8 eq_refl eq_refl H).
Defined.

(** X6.  The overall verdict is the higher of the two bands, for every
    score and label: it is never below the tide band nor below the coastal
    band, and never above both. *)
Theorem overall_is_highest_band (score : float) (label : string) :
  band_rank (Spec.band_of_class (overall_risk score label).1.1) =
    Nat.max (band_rank (derived_tide_band score))
            (band_rank (derived_coastal_band label)).
Proof.
  unfold derived_tide_band, derived_coastal_band, tide_risk_level,
    coastal_risk_style, overall_risk.
  destruct (Float64.ge score 2.5) eqn:A2, (Float64.ge score 1.5) eqn:A1,
    (label =? "High")%string, (label =? "Moderate")%string; reflexivity.
Qed.

Lemma ge_nan (x y : float) : is_nan x = true -> Float64.ge x y = false.
Proof.
  intros H. unfold Float64.ge. rewrite leb_spec.
  unfold Prim2SF at 2. rewrite H. unfold SFleb.
  destruct (Prim2SF y); reflexivity.
Qed.

(** X7.  A NaN tide score raises nothing and is classified Low: both
    threshold tests are false.  With such a score the overall verdict is
    the coastal band alone. *)
Theorem nan_score_is_low (score : float) (label : string) :
  is_nan score = true ->
  tide_risk_level score = ("Low", "🟢", "risk-low") /\
  overall_risk score label =
    Spec.overall_style (derived_coastal_band label).
Proof.
  intros H. unfold tide_risk_level, overall_risk, derived_coastal_band,
    coastal_risk_style.
  rewrite !(ge_nan score _ H).
  split; [reflexivity|].
  destruct (label =? "High")%string, (label =? "Moderate")%string;
    reflexivity.
Qed.

Lemma nan_score_is_low_witness :
  is_nan nan = true /\
  tide_risk_level nan = ("Low", "🟢", "risk-low") /\
  overall_risk nan "Moderate" =
    ("risk-moderate", "🟡 MODERATE RISK",
     "Exercise extreme caution near coastal areas").
Proof.
  split; [reflexivity|].
  exact (nan_score_is_low nan "Moderate" eq_refl).
Defined.

(** ** More on [display_prediction_results] *)

(** X8.  The message of a failed call is never shown: with a failed entry
    under ['tide'] (or under ['coastal']) the page is the one drawn when
    that key is missing, whatever the message. *)
Theorem failure_message_is_not_displayed (results : gmap string entry)
    (lat lon : float) (shown : list element) (msg : string) :
  display_prediction_results (<["tide" := Failure msg]> results) lat lon shown
    = display_prediction_results (delete "tide" results) lat lon shown /\
  display_prediction_results (<["coastal" := Failure msg]> results) lat lon
      shown
    = display_prediction_results (delete "coastal" results) lat lon shown.
Proof.
  split; run_block; unfold available;
    repeat first [ rewrite lookup_insert_eq
                 | rewrite lookup_delete_eq
                 | rewrite lookup_insert_ne by done
                 | rewrite lookup_delete_ne by done ];
    cbn.
  - destruct (results !! "coastal") as [[s' l' c' k' | l' c' k' | e']|];
      reflexivity.
  - destruct (results !! "tide") as [[s l c k | l c k | e]|]; reflexivity.
Qed.

(** The cards do not depend on what is already on the page, which is
    kept. *)
Lemma display_appends (results : gmap string entry) (lat lon : float)
    (shown : list element) :
  display_prediction_results results lat lon shown =
    ((display_prediction_results results lat lon []).1,
     shown ++ (display_prediction_results results lat lon []).2).
Proof.
  run_block. unfold available.
  destruct (results !! "tide") as [[score l c k | l c k | err]|];
    destruct (results !! "coastal") as [[score' l' c' k' | l' c' k' | err']|];
    cbn; try destruct (overall_risk _ _) as [[oc ot] od];
    cbn; rewrite <- ?app_assoc; reflexivity.
Qed.

(** The analysis of a coordinate always completes: the results of
    [make_predictions] are drawn after the balloons. *)
Lemma analyze_completes (tide_model : option TideModel)
    (coastal_model : option CoastalModel) (lat lon : float) (s : Session)
    (shown : list element) :
  exists results cards,
    make_predictions tide_model coastal_model lat lon = Returns results /\
    display_prediction_results results lat lon [] = (Returns tt, cards) /\
    analyze tide_model coastal_model lat lon s shown =
      {| session := s; rendered := shown ++ [Balloons] ++ cards;
         ctl := Completed |}.
Proof.
  destruct (make_predictions_available tide_model coastal_model lat lon)
    as (results & Hr & St & Sc & _).
  destruct (display_overall_iff results lat lon St Sc) as (cards & Hd & _).
  exists results, cards. split; [exact Hr|]. split; [exact Hd|].
  unfold analyze. rewrite Hr, display_appends, Hd. cbn [fst snd].
  now rewrite <- app_assoc.
Qed.

(** ** More on the script *)

Lemma analyze_result (tide_model : option TideModel)
    (coastal_model : option CoastalModel) (lat lon : float) (s : Session)
    (shown : list element) :
  session (analyze tide_model coastal_model lat lon s shown) = s /\
  ctl (analyze tide_model coastal_model lat lon s shown) = Completed.
Proof.
  destruct (analyze_completes tide_model coastal_model lat lon s shown)
    as (results & cards & _ & _ & ->). split; reflexivity.
Qed.

Lemma app2_some_model (folium : bool) (loaded : load_state)
    (st : session_state) (w : widgets) :
  some_model loaded ->
  app2 folium loaded st w =
    footer
      (if (page (initialize st) =? "home")%string then
         home_page (initialize st) w
       else if (page (initialize st) =? "map")%string then
         map_page folium (tide_model_var loaded) (coastal_model_var loaded)
           (initialize st) w
       else if (page (initialize st) =? "coordinates")%string then
         coordinates_page (tide_model_var loaded) (coastal_model_var loaded)
           (initialize st) w
       else {| session := initialize st; rendered := []; ctl := Completed |}).
Proof. intros H. unfold app2. now rewrite H. Qed.





(** Closes a goal whose hypothesis puts a result card in a list of elements
    that are not result cards. *)
Ltac no_card H C :=
  repeat (apply elem_of_cons in H as [H | H];
          [rewrite H in C; discriminate C|]);
  apply elem_of_nil in H; contradiction.

Lemma footer_card (r : run) (e : element) :
  is_result_card e = true -> e ∈ rendered (footer r) -> e ∈ rendered r.
Proof.
  intros C. unfold footer. destruct (ctl r); cbn [rendered]; try tauto.
  rewrite elem_of_app, list_elem_of_singleton. intros [H | H]; [assumption|].
  rewrite H in C. discriminate C.
Qed.

(** X10.  Results are only drawn on request: if a run shows any card of an
    analysis, the Analyze button was pressed in that run, on the map page
    or the coordinates page, and Back was not. *)
Theorem results_only_on_request (folium : bool) (loaded : load_state)
    (st : session_state) (w : widgets) (e : element) :
  is_result_card e = true ->
  e ∈ rendered (app2 folium loaded st w) ->
  btn_analyze w = true /\ btn_back w = false /\
  (page (initialize st) = "map" \/ page (initialize st) = "coordinates").
Proof.
  intros C H. unfold app2 in H.
  destruct (is_None (tide_model_var loaded) &&
            is_None (coastal_model_var loaded)); [cbn in H; no_card H C|].
  apply (footer_card _ _ C) in H.
  destruct (String.eqb_spec (page (initialize st)) "home") as [Eh | Nh].
  { unfold home_page in H.
    destruct (btn_map w); [cbn in H; no_card H C|].
    destruct (btn_coordinates w); cbn in H; no_card H C. }
  destruct (String.eqb_spec (page (initialize st)) "map") as [Em | Nm].
  { unfold map_page in H.
    destruct (btn_back w); [cbn in H; no_card H C|].
    destruct folium; [|cbn in H; no_card H C].
    destruct (btn_analyze w); [now auto|].
    destruct (last_clicked w) as [[clat clng]|];
      [destruct (Float64.truthy clat && Float64.truthy clng)|];
      cbn in H; no_card H C. }
  destruct (String.eqb_spec (page (initialize st)) "coordinates")
    as [Ec | Nc]; [|cbn in H; no_card H C].
  unfold coordinates_page in H.
  destruct (btn_back w); [cbn in H; no_card H C|].
  destruct (btn_analyze w); [now auto|]. cbn in H. no_card H C.
Qed.

Lemma results_only_on_request_witness :
  is_result_card ResultsHeader = true /\
  ResultsHeader ∈
    rendered (app2 true both_loaded (stored on_map_at_dublin) press_analyze) /\
  btn_analyze press_analyze = true.
Proof.
  assert (H : ResultsHeader ∈
    rendered (app2 true both_loaded (stored on_map_at_dublin) press_analyze)).
  { do 3 apply list_elem_of_further. apply list_elem_of_here. }
  split; [reflexivity|]. split; [exact H|].
  exact (proj1 (results_only_on_request true both_loaded
                  (stored on_map_at_dublin) press_analyze ResultsHeader
                  eq_refl H)).
Defined.

Lemma home_page_known (s : Session) (w : widgets) :
  known_page (page (session (home_page s w))) \/
  page (session (home_page s w)) = page s.
Proof.
  unfold home_page, known_page. destruct (btn_map w); [cbn; tauto|].
  destruct (btn_coordinates w); cbn; tauto.
Qed.

Lemma map_page_known (folium : bool) (tide_model : option TideModel)
    (coastal_model : option CoastalModel) (s : Session) (w : widgets) :
  known_page (page (session (map_page folium tide_model coastal_model s w))) \/
  page (session (map_page folium tide_model coastal_model s w)) = page s.
Proof.
  unfold map_page, known_page. destruct (btn_back w); [cbn; tauto|].
  destruct folium; [|cbn; tauto]. right.
  assert (A : forall shown,
    session (if btn_analyze w
             then analyze tide_model coastal_model (latitude s) (longitude s)
                    s shown
             else {| session := s; rendered := shown; ctl := Completed |})
      = s).
  { intros shown. destruct (btn_analyze w); [apply analyze_result|reflexivity]. }
  destruct (last_clicked w) as [[clat clng]|]; [|now rewrite A].
  destruct (Float64.truthy clat && Float64.truthy clng);
    [reflexivity | now rewrite A].
Qed.

Lemma coordinates_page_known (tide_model : option TideModel)
    (coastal_model : option CoastalModel) (s : Session) (w : widgets) :
  known_page
    (page (session (coordinates_page tide_model coastal_model s w))) \/
  page (session (coordinates_page tide_model coastal_model s w)) = page s.
Proof.
  unfold coordinates_page, known_page. destruct (btn_back w); [cbn; tauto|].
  right. destruct (btn_analyze w); [|reflexivity].
  match goal with |- context [if ?c then _ else _] => destruct c end;
    [|reflexivity].
  match goal with |- context [analyze ?t ?c ?la ?lo ?s' ?sh] =>
    rewrite (proj1 (analyze_result t c la lo s' sh)) end.
  reflexivity.
Qed.

(** One run keeps the page among the three known pages. *)
Lemma app2_known_page (folium : bool) (loaded : load_state)
    (st : session_state) (w : widgets) :
  known_page (page (initialize st)) ->
  known_page (page (session (app2 folium loaded st w))).
Proof.
  intros K. unfold app2.
  destruct (is_None (tide_model_var loaded) &&
            is_None (coastal_model_var loaded)); [exact K|].
  rewrite footer_session.
  destruct (page (initialize st) =? "home")%string.
  { destruct (home_page_known (initialize st) w) as [H | H];
      [exact H | now rewrite H]. }
  destruct (page (initialize st) =? "map")%string.
  { destruct (map_page_known folium (tide_model_var loaded)
                (coastal_model_var loaded) (initialize st) w) as [H | H];
      [exact H | now rewrite H]. }
  destruct (page (initialize st) =? "coordinates")%string; [|exact K].
  destruct (coordinates_page_known (tide_model_var loaded)
              (coastal_model_var loaded) (initialize st) w) as [H | H];
    [exact H | now rewrite H].
Qed.

Lemma reruns_known_page (folium : bool) (loaded : load_state)
    (ws : list widgets) :
  forall st,
    known_page (page (initialize st)) ->
    Forall (fun r => known_page (page (session r)))
           (reruns folium loaded st ws).
Proof.
  induction ws as [|w ws IH]; intros st K; cbn [reruns]; constructor.
  - now apply app2_known_page.
  - apply IH. rewrite initialize_stored. now apply app2_known_page.
Qed.

(** X11.  Throughout a session, whatever the store holds and whatever the
    user does, the page of the session state is one of ['home'], ['map']
    and ['coordinates']: the final [else] of the page dispatch is never
    reached. *)
Theorem session_page_invariant (folium : bool) (fs : filesystem)
    (ws : list widgets) :
  Forall (fun r => known_page (page (session r))) (app_session folium fs ws).
Proof.
  unfold app_session. apply reruns_known_page. left. reflexivity.
Qed.

(** X12.  Going from the home page to the map or to the coordinates page and
    straight back takes two reruns and gives the session state back as it
    was: the page is ['home'] again and the coordinate is untouched, even
    if the run in which Back is pressed carries a click or typed values. *)
Theorem navigation_round_trip (folium : bool) (loaded : load_state)
    (s : Session) (w1 w2 : widgets) :
  some_model loaded -> page s = "home" ->
  btn_map w1 = true \/ btn_coordinates w1 = true ->
  btn_back w2 = true ->
  exists r1 r2,
    reruns folium loaded (stored s) [w1; w2] = [r1; r2] /\
    ctl r1 = Rerun /\
    page (session r1) = (if btn_map w1 then "map" else "coordinates") /\
    latitude (session r1) = latitude s /\
    longitude (session r1) = longitude s /\
    ctl r2 = Rerun /\
    session r2 = s.
Proof.
  intros Hm Hp Hb1 Hb2. cbn [reruns]. do 2 eexists. split; [reflexivity|].
  rewrite !(app2_some_model _ _ _ _ Hm), !initialize_stored, Hp.
  cbn [String.eqb Ascii.eqb Bool.eqb]. unfold home_page.
  destruct s as [p lat lon]. cbn in Hp. subst p.
  destruct (btn_map w1).
  - cbn. unfold map_page. rewrite Hb2. cbn. repeat split; reflexivity.
  - destruct Hb1 as [Hb1 | Hb1]; [discriminate|]. rewrite Hb1.
    cbn. unfold coordinates_page. rewrite Hb2. cbn. repeat split; reflexivity.
Qed.

Lemma navigation_round_trip_witness :
  some_model both_loaded /\ page at_home_in_dublin = "home" /\
  btn_coordinates press_coordinates = true /\
  btn_back (press_back_after_typing 10 20) = true /\
  exists r1 r2,
    reruns true both_loaded (stored at_home_in_dublin)
      [press_coordinates; press_back_after_typing 10 20] = [r1; r2] /\
    page (session r1) = "coordinates" /\
    session r2 = at_home_in_dublin.
Proof.
  split; [reflexivity|]. split; [reflexivity|]. split; [reflexivity|].
  split; [reflexivity|].
  destruct (navigation_round_trip true both_loaded at_home_in_dublin
              press_coordinates (press_back_after_typing 10 20)
              eq_refl eq_refl (or_intror eq_refl) eq_refl)
    as (r1 & r2 & H & _ & Hp & _ & _ & _ & Hs).
  exists r1, r2. split; [exact H|]. split; [exact Hp | exact Hs].
Defined.

(** One run of the map page in which Analyze is pressed and no click is
    taken. *)
Lemma map_page_analysis (loaded : load_state) (s : Session) (w : widgets) :
  some_model loaded -> page s = "map" -> btn_back w = false ->
  ignored_click (last_clicked w) -> btn_analyze w = true ->
  exists results cards,
    make_predictions (tide_model_var loaded) (coastal_model_var loaded)
      (latitude s) (longitude s) = Returns results /\
    display_prediction_results results (latitude s) (longitude s) []
      = (Returns tt, cards) /\
    app2 true loaded (stored s) w =
      {| session := s;
         rendered := [MapTitle; FoliumMap (latitude s) (longitude s);
                      Balloons] ++ cards ++ [Footer];
         ctl := Completed |}.
Proof.
  intros Hm Hp Hb Hi Ha.
  destruct (analyze_completes (tide_model_var loaded)
              (coastal_model_var loaded) (latitude s) (longitude s) s
              [MapTitle; FoliumMap (latitude s) (longitude s)])
    as (results & cards & Hr & Hd & Han).
  exists results, cards. split; [exact Hr|]. split; [exact Hd|].
  rewrite (app2_some_model _ _ _ _ Hm), initialize_stored, Hp.
  cbn [String.eqb Ascii.eqb Bool.eqb]. unfold map_page. rewrite Hb, Ha, Han.
  assert (E :
    match last_clicked w with
    | Some (clicked_lat, clicked_lng) =>
        Float64.truthy clicked_lat && Float64.truthy clicked_lng
    | None => false
    end = false).
  { destruct (last_clicked w) as [[lat lng]|]; [|reflexivity].
    unfold Float64.truthy. cbn in Hi.
    destruct Hi as [-> | ->]; [reflexivity | apply andb_false_r]. }
  destruct (last_clicked w) as [[lat lng]|]; [rewrite E|];
    unfold footer; cbn; rewrite <- ?app_assoc; reflexivity.
Qed.

(** X13.  On the map page, Analyze takes the coordinate of the session as it
    is, with no range check: the page shows the cards of
    [make_predictions] for that coordinate between the balloons and the
    footer, the run completes, and the session state is left unchanged. *)
Theorem map_analysis_uses_session_coordinate (loaded : load_state)
    (s : Session) (w : widgets) :
  some_model loaded -> page s = "map" -> btn_back w = false ->
  ignored_click (last_clicked w) -> btn_analyze w = true ->
  exists results cards,
    make_predictions (tide_model_var loaded) (coastal_model_var loaded)
      (latitude s) (longitude s) = Returns results /\
    display_prediction_results results (latitude s) (longitude s) []
      = (Returns tt, cards) /\
    app2 true loaded (stored s) w =
      {| session := s;
         rendered := [MapTitle; FoliumMap (latitude s) (longitude s);
                      Balloons] ++ cards ++ [Footer];
         ctl := Completed |}.
Proof. apply map_page_analysis. Qed.

Lemma map_analysis_uses_session_coordinate_witness :
  some_model both_loaded /\ page on_map_at_dublin = "map" /\
  btn_back press_analyze = false /\
  ignored_click (last_clicked press_analyze) /\
  btn_analyze press_analyze = true /\
  exists results cards,
    make_predictions (Some steady_tide) (Some calm_coast) 53.3498 (-6.2603)
      = Returns results /\
    display_prediction_results results 53.3498 (-6.2603) []
      = (Returns tt, cards) /\
    app2 true both_loaded (stored on_map_at_dublin) press_analyze =
      {| session := on_map_at_dublin;
         rendered := [MapTitle; FoliumMap 53.3498 (-6.2603); Balloons]
                     ++ cards ++ [Footer];
         ctl := Completed |}.
Proof.
  split; [reflexivity|]. split; [reflexivity|]. split; [reflexivity|].
  split; [exact I|]. split; [reflexivity|].
  exact (map_analysis_uses_session_coordinate both_loaded on_map_at_dublin
           press_analyze eq_refl eq_refl eq_refl I eq_refl).
Defined.

(** X14.  Selecting a location and then analysing it: a click with non-zero
    latitude and longitude is taken first, even if Analyze is pressed in
    the same run (that run only shows the selection and asks for a rerun);
    an Analyze in the next run is then for the clicked coordinate. *)
Theorem click_then_analyze (loaded : load_state) (s : Session)
    (w1 w2 : widgets) (lat lng : float) :
  some_model loaded -> page s = "map" ->
  btn_back w1 = false -> last_clicked w1 = Some (lat, lng) ->
  Float64.truthy lat = true -> Float64.truthy lng = true ->
  btn_back w2 = false -> ignored_click (last_clicked w2) ->
  btn_analyze w2 = true ->
  exists results cards,
    make_predictions (tide_model_var loaded) (coastal_model_var loaded)
      lat lng = Returns results /\
    display_prediction_results results lat lng [] = (Returns tt, cards) /\
    reruns true loaded (stored s) [w1; w2] =
      [ {| session := {| page := "map"; latitude := lat; longitude := lng |};
           rendered := [MapTitle; FoliumMap (latitude s) (longitude s);
                        LocationSelected lat lng];
           ctl := Rerun |};
        {| session := {| page := "map"; latitude := lat; longitude := lng |};
           rendered := [MapTitle; FoliumMap lat lng; Balloons]
                       ++ cards ++ [Footer];
           ctl := Completed |} ].
Proof.
  intros Hm Hp Hb1 Hc Tlat Tlng Hb2 Hi Ha.
  destruct (map_page_analysis loaded
              {| page := "map"; latitude := lat; longitude := lng |} w2
              Hm eq_refl Hb2 Hi Ha) as (results & cards & Hr & Hd & Hrun).
  exists results, cards. split; [exact Hr|]. split; [exact Hd|].
  cbn [reruns].
  rewrite (map_click_selects loaded s w1 lat lng Hm Hp Hb1 Hc Tlat Tlng).
  cbn [session]. now rewrite Hrun.
Qed.

Lemma click_then_analyze_witness :
  some_model both_loaded /\ page on_map_at_dublin = "map" /\
  last_clicked (click_and_analyze 51.5 (-0.12)) = Some (51.5, -0.12)%float /\
  Float64.truthy 51.5 = true /\ Float64.truthy (-0.12) = true /\
  btn_analyze press_analyze = true /\
  exists results cards,
    make_predictions (Some steady_tide) (Some calm_coast) 51.5 (-0.12)
      = Returns results /\
    display_prediction_results results 51.5 (-0.12) [] = (Returns tt, cards) /\
    reruns true both_loaded (stored on_map_at_dublin)
      [click_and_analyze 51.5 (-0.12); press_analyze] =
      [ {| session :=
             {| page := "map"; latitude := 51.5; longitude := (-0.12) |};
           rendered := [MapTitle; FoliumMap 53.3498 (-6.2603);
                        LocationSelected 51.5 (-0.12)];
           ctl := Rerun |};
        {| session :=
             {| page := "map"; latitude := 51.5; longitude := (-0.12) |};
           rendered := [MapTitle; FoliumMap 51.5 (-0.12); Balloons]
                       ++ cards ++ [Footer];
           ctl := Completed |} ].
Proof.
  split; [reflexivity|]. split; [reflexivity|]. split; [reflexivity|].
  split; [reflexivity|]. split; [reflexivity|]. split; [reflexivity|].
  exact (click_then_analyze both_loaded on_map_at_dublin
           (click_and_analyze 51.5 (-0.12)) press_analyze 51.5 (-0.12)
           eq_refl eq_refl eq_refl eq_refl eq_refl eq_refl eq_refl I eq_refl).
Defined.








(** ** From the store to the page *)

(** X17.  With only the tide model loaded (the coastal artifact is absent or
    fails to load), the application is not blocked and an analysis on the
    map page shows the tide card for the session coordinate, the
    unavailable card for the coastal signal, and no overall card. *)
Theorem tide_only_analysis (fs : filesystem) (model : TideModel)
    (s : Session) (w : widgets) (score : float) :
  tide_prediction_joblib fs = Some (Returns model) ->
  (forall coastal, coastal_risk_model_joblib fs <> Some (Returns coastal)) ->
  page s = "map" -> btn_back w = false ->
  ignored_click (last_clicked w) -> btn_analyze w = true ->
  model (latitude s) (longitude s) = Returns score ->
  app2 true (load_models fs) (stored s) w =
    {| session := s;
       rendered :=
         [MapTitle; FoliumMap (latitude s) (longitude s); Balloons;
          ResultsHeader; LocationInfo (latitude s) (longitude s);
          TideCard (tide_risk_level score).2 (tide_risk_level score).1.2
                   (tide_risk_level score).1.1 score;
          ModelUnavailable "Coastal Flood Risk"; Footer];
       ctl := Completed |}.
Proof.
  intros Ht Hc Hp Hb Hi Ha Hs.
  assert (Vt : tide_model_var (load_models fs) = Some model).
  { unfold load_models, load_models_body. rewrite Ht.
    destruct (coastal_risk_model_joblib fs) as [[cm | e]|]; reflexivity. }
  assert (Vc : coastal_model_var (load_models fs) = None).
  { unfold load_models, load_models_body. rewrite Ht.
    destruct (coastal_risk_model_joblib fs) as [[cm | e]|];
      [exfalso; now apply (Hc cm) | reflexivity | reflexivity]. }
  assert (Hm : some_model (load_models fs)).
  { unfold some_model. now rewrite Vt. }
  destruct (map_page_analysis (load_models fs) s w Hm Hp Hb Hi Ha)
    as (results & cards & Hr & Hd & ->).
  rewrite Vt, Vc in Hr.
  destruct (make_predictions_returns (Some model) None (latitude s)
              (longitude s)) as (results' & Hr' & Et & Ec).
  rewrite Hr in Hr'. injection Hr' as <-.
  unfold tide_entry in Et. rewrite Hs in Et. cbn in Ec.
  destruct (tide_risk_level score) as [[l c] k]. cbn [fst snd].
  rewrite (display_tide_only results _ _ _ _ _ _ Et) in Hd.
  - injection Hd as <-. reflexivity.
  - unfold available. now rewrite Ec.
Qed.

Lemma tide_only_analysis_witness :
  tide_prediction_joblib corrupt_coastal_store = Some (Returns steady_tide) /\
  (forall coastal,
     coastal_risk_model_joblib corrupt_coastal_store
       <> Some (Returns coastal)) /\
  page on_map_at_dublin = "map" /\
  steady_tide 53.3498%float (-6.2603)%float = Returns 1.8%float /\
  app2 true (load_models corrupt_coastal_store) (stored on_map_at_dublin)
    press_analyze =
    {| session := on_map_at_dublin;
       rendered :=
         [MapTitle; FoliumMap 53.3498 (-6.2603); Balloons;
          ResultsHeader; LocationInfo 53.3498 (-6.2603);
          TideCard "risk-moderate" "🟡" "Moderate" 1.8;
          ModelUnavailable "Coastal Flood Risk"; Footer];
       ctl := Completed |}.
Proof.
  assert (N : forall coastal,
             coastal_risk_model_joblib corrupt_coastal_store
               <> Some (Returns coastal)) by discriminate.
  split; [reflexivity|]. split; [exact N|]. split; [reflexivity|].
  split; [reflexivity|].
  exact (tide_only_analysis corrupt_coastal_store steady_tide
           on_map_at_dublin press_analyze 1.8 eq_refl N eq_refl eq_refl I
           eq_refl eq_refl).
Defined.
